(** * Vacancy / application lifecycle of the tuition backend

    A shallow embedding of the route handlers of
    [routes/teacherApply.js] and [routes/vacancyRoutes.js] that read and
    write the [Vacancy] collection: applying to a vacancy, changing the
    status of an application, and listing the available vacancies.

    A handler is a function from the request inputs and the database to a
    reply and the database it leaves behind.  Statuses are the strings the
    JavaScript code compares and stores; identifiers are the strings the
    code compares with [toString()]. *)

From Stdlib Require Import ZArith.
From stdpp Require Import base decidable option list strings.

Open Scope string_scope.
Open Scope list_scope.
Open Scope nat_scope.

(** An ObjectId, compared through its hexadecimal string. *)
Abbreviation ObjectId := string.

(** ** Documents *)

(** A document of the [Teacher] collection, as far as the handlers look at
    it: populate resolves [applications.teacher] to such a document. *)
Module Teacher.
Record t := mk { _id : ObjectId; fullName : string }.
End Teacher.

(** An entry of [vacancy.applications]. [appliedAt] is absent when the
    pushed object does not carry it. *)
Module Application.
Record t := mk {
  _id : ObjectId;
  teacher : ObjectId;
  status : string;
  appliedAt : option Z
}.

Definition set_status (s : string) (a : t) : t :=
  mk (_id a) (teacher a) s (appliedAt a).
End Application.

(** An application after [populate('applications.teacher')]: the reference
    is replaced by the teacher document, or by null when none has that id. *)
Module Populated.
Record t := mk {
  _id : ObjectId;
  teacher : option Teacher.t;
  status : string;
  appliedAt : option Z
}.
End Populated.

Module Vacancy.
(** The descriptive fields, which no handler here inspects. *)
Record content := mk_content {
  title : string;
  subject : string;
  description : string;
  requirements : string;
  salary : string
}.

Record t := mk {
  _id : ObjectId;
  descr : content;
  status : string;
  featured : bool;
  applications : list Application.t
}.

Definition set_status (s : string) (v : t) : t :=
  mk (_id v) (descr v) s (featured v) (applications v).

Definition set_applications (apps : list Application.t) (v : t) : t :=
  mk (_id v) (descr v) (status v) (featured v) apps.

Definition set_applications_with
    (f : list Application.t → list Application.t) (v : t) : t :=
  set_applications (f (applications v)) v.

(** The lean object left by
    [.select('title subject description requirements salary applications status')]. *)
Record selected := mk_selected {
  sel_id : ObjectId;
  sel_descr : content;
  sel_applications : list Application.t;
  sel_status : string
}.

Definition select (v : t) : selected :=
  mk_selected (_id v) (descr v) (applications v) (status v).
End Vacancy.

(** The two collections the handlers touch. *)
Record DB := mkDB {
  teachers : list Teacher.t;
  vacancies : list Vacancy.t
}.

Definition with_vacancies (vs : list Vacancy.t) (db : DB) : DB :=
  mkDB (teachers db) vs.

(** ** The store operations the handlers call *)

Module Mongo.
Section collection.
Context {D : Type} (q : D → Prop) `{!∀ d, Decision (q d)}.

(** [Model.findOne(q)]: the first document, in the collection's order,
    that matches. *)
Definition findOne (c : list D) : option D := snd <$> list_find q c.

(** [Model.find(q)]. *)
Definition find (c : list D) : list D := filter q c.

(** [Model.updateOne(q, u)]: the first matching document is updated;
    nothing happens when none matches. *)
Definition updateOne (u : D → D) (c : list D) : list D :=
  match list_find q c with
  | Some (i, _) => alter u i c
  | None => c
  end.

(** [Model.findOneAndUpdate(q, u, { new: true })]: as [updateOne], and
    the updated document is returned. *)
Definition findOneAndUpdate (u : D → D) (c : list D) : option D * list D :=
  (u <$> findOne c, updateOne u c).
End collection.

(** [{ $set: { 'applications.$.field': x } }] under a query on
    ['applications._id']: the first array element with that id. *)
Definition positional (applicationId : ObjectId)
    (u : Application.t → Application.t) (apps : list Application.t)
    : list Application.t :=
  updateOne (λ a, Application._id a = applicationId) u apps.

(** [{ $set: { 'applications.$[elem].field': x } }] with [arrayFilters]:
    every array element the filter accepts. *)
Definition filtered (f : Application.t → Prop) `{!∀ a, Decision (f a)}
    (u : Application.t → Application.t) (apps : list Application.t)
    : list Application.t :=
  (λ elem, if decide (f elem) then u elem else elem) <$> apps.

(** [populate('applications.teacher')] on one array element. *)
Definition populate (ts : list Teacher.t) (a : Application.t) : Populated.t :=
  Populated.mk (Application._id a)
    (findOne (λ t, Teacher._id t = Application.teacher a) ts)
    (Application.status a) (Application.appliedAt a).

(** [doc.save()] of a loaded document: the stored document with that
    [_id] takes the in-memory state. *)
Definition save (doc : Vacancy.t) (c : list Vacancy.t) : list Vacancy.t :=
  updateOne (λ v, Vacancy._id v = Vacancy._id doc) (λ _, doc) c.

(** [Model.findById(id)]. *)
Definition findById (id : ObjectId) (c : list Vacancy.t) : option Vacancy.t :=
  findOne (λ v, Vacancy._id v = id) c.
(** [Model.findOneAndDelete(q)], and [findByIdAndDelete]: the first
    matching document is removed and returned. *)
Definition findOneAndDelete {D : Type} (q : D → Prop) `{!∀ d, Decision (q d)}
    (c : list D) : option D * list D :=
  match list_find q c with
  | Some (i, d) => (Some d, delete i c)
  | None => (None, c)
  end.

(** [Model.countDocuments(q)]. *)
Definition countDocuments {D : Type} (q : D → Prop) `{!∀ d, Decision (q d)}
    (c : list D) : nat :=
  length (filter q c).
End Mongo.

(** ** Replies *)

(** [res.json(body)] answers 200 with the body;
    [res.status(code).json({ success: false, message })] answers an error. *)
Inductive reply (B : Type) : Type :=
| json (body : B)
| status_json (code : nat) (message : string).
Arguments json {B} body.
Arguments status_json {B} code message.

Definition is_json {B} (r : reply B) : Prop :=
  match r with json _ => True | status_json _ _ => False end.

(** The error replies of the handlers, under the names the specification
    gives to the failure kinds. *)
Definition NotFoundOrNotOpen {B} : reply B :=
  status_json 404 "Vacancy not found or not open".
Definition DuplicateApplication {B} : reply B :=
  status_json 400 "You have already applied for this vacancy".
Definition CapacityExceeded {B} : reply B :=
  status_json 400 "This vacancy has reached maximum applications".
Definition ApplicationNotFound {B} : reply B :=
  status_json 404 "Application not found".
Definition VacancyOrApplicationNotFound {B} : reply B :=
  status_json 404 "Vacancy or application not found".

(** ** Exceptions and strings of the JavaScript code *)

(** A computation inside a [try] block: it returns a value or throws an
    error with a message. *)
Inductive attempt (A : Type) : Type :=
| Returned (a : A)
| Thrown (message : string).
Arguments Returned {A} a.
Arguments Thrown {A} message.

#[global] Instance attempt_ret : MRet attempt := λ A a, Returned a.

#[global] Instance attempt_bind : MBind attempt := λ A B f m,
  match m with
  | Returned a => f a
  | Thrown message => Thrown message
  end.

(** [try { ... } catch (error) { handler(error.message) }] around a block
    that ends in a reply. *)
Definition try_catch {B} (block : attempt (reply B))
    (handler : string → reply B) : reply B :=
  match block with
  | Returned r => r
  | Thrown message => handler message
  end.

(** Reading a property of a value that may be null or undefined:
    [typeError] is the message the engine gives the TypeError it throws. *)
Definition property_of {A} (typeError : string) (o : option A) : attempt A :=
  match o with
  | Some a => Returned a
  | None => Thrown typeError
  end.

Module JS.
(** [String.prototype.toLowerCase] on the letters A to Z; every other
    character is left as it is. The handlers only compare the result with
    'open' and 'closed', words no other character lowers into. *)
Definition lower (c : Ascii.ascii) : Ascii.ascii :=
  let n := Ascii.nat_of_ascii c in
  if decide (65 ≤ n ∧ n ≤ 90) then Ascii.ascii_of_nat (n + 32) else c.

Fixpoint toLowerCase (s : string) : string :=
  match s with
  | EmptyString => EmptyString
  | String c s => String (lower c) (toLowerCase s)
  end.

(** The double quote character, as a string. *)
Definition quote : string := String (Ascii.ascii_of_nat 34) EmptyString.
End JS.

(** ** routes/teacherApply.js *)

Module TeacherApply.

(** [{ ...vacancy, applicantCount }] of GET /available-vacancies. *)
Record formatted := mk_formatted {
  vacancy : Vacancy.selected;
  applicantCount : nat
}.

(** GET /available-vacancies. The query is
    [{ status: 'open', $expr: { $lt: [{ $size: '$applications' }, 5] },
       'applications.teacher': { $ne: currentTeacherId } }];
    [$ne] on an array path holds when no element equals the value. *)
Definition available_vacancies (currentTeacherId : ObjectId) (db : DB)
    : reply (list formatted) :=
  let vacancies :=
    Mongo.find
      (λ v, Vacancy.status v = "open"
            ∧ length (Vacancy.applications v) < 5
            ∧ Forall (λ a, Application.teacher a ≠ currentTeacherId)
                     (Vacancy.applications v))
      (vacancies db) in
  json ((λ v, mk_formatted (Vacancy.select v)
                           (length (Vacancy.applications v)))
        <$> vacancies).

(** The success body of POST /apply-vacancy/:id. *)
Record applied := mk_applied {
  applied_message : string;
  vacancyStatus : string;
  applied_applications : list Populated.t
}.

(** POST /apply-vacancy/:id. [now] is [new Date()] and [newId] the [_id]
    the pushed subdocument receives. *)
Definition apply_vacancy (now : Z) (newId : ObjectId)
    (vacancyId teacherId : ObjectId) (db : DB) : reply applied * DB :=
  match Mongo.findOne
          (λ v, Vacancy._id v = vacancyId ∧ Vacancy.status v = "open")
          (vacancies db) with
  | None => (NotFoundOrNotOpen, db)
  | Some existingVacancy =>
      let populated :=
        Mongo.populate (teachers db) <$> Vacancy.applications existingVacancy in
      (* app.teacher && app.teacher._id.toString() === teacherId.toString() *)
      if decide (Exists (λ app, Teacher._id <$> Populated.teacher app
                                = Some teacherId) populated)
      then (DuplicateApplication, db)
      else
        let pushed :=
          Vacancy.applications existingVacancy
            ++ [Application.mk newId teacherId "pending" (Some now)] in
        let existingVacancy := Vacancy.set_applications pushed existingVacancy in
        let existingVacancy :=
          if decide (length pushed = 5)
          then Vacancy.set_status "closed" existingVacancy
          else existingVacancy in
        let db := with_vacancies (Mongo.save existingVacancy (vacancies db)) db in
        match Mongo.findById vacancyId (vacancies db) with
        | None =>
            (* reading [applications] of null throws; the catch answers *)
            (status_json 500 "Error submitting application", db)
        | Some updatedVacancy =>
            (json (mk_applied "Application submitted successfully"
                     (Vacancy.status existingVacancy)
                     (Mongo.populate (teachers db)
                        <$> Vacancy.applications updatedVacancy)),
             db)
        end
  end.

(** The success body of PUT /application-status/:applicationId. *)
Record updated := mk_updated {
  updated_message : string;
  data : list Populated.t
}.

(** The first write of PUT /application-status/:applicationId. *)
Definition set_update (applicationId : ObjectId) (status : string)
    (v : Vacancy.t) : Vacancy.t :=
  let v :=
    Vacancy.set_applications
      (Mongo.positional applicationId (Application.set_status status)
         (Vacancy.applications v)) v in
  if decide (status = "accepted") then Vacancy.set_status "closed" v else v.

(** The second write: [arrayFilters] keeps the elements with another
    [_id] whose status is pending. *)
Definition reject_others (applicationId : ObjectId) (v : Vacancy.t) : Vacancy.t :=
  Vacancy.set_applications
    (Mongo.filtered
       (λ elem, Application._id elem ≠ applicationId
                ∧ Application.status elem = "pending")
       (Application.set_status "rejected")
       (Vacancy.applications v)) v.

(** PUT /application-status/:applicationId. *)
Definition application_status (applicationId : ObjectId) (status : string)
    (db : DB) : reply updated * DB :=
  match Mongo.findOneAndUpdate
          (λ v, Exists (λ a, Application._id a = applicationId)
                       (Vacancy.applications v))
          (set_update applicationId status)
          (vacancies db) with
  | (None, _) => (ApplicationNotFound, db)
  | (Some vacancy, vacancies1) =>
      let vacancies2 :=
        if decide (status = "accepted")
        then Mongo.updateOne (λ v, Vacancy._id v = Vacancy._id vacancy)
                             (reject_others applicationId) vacancies1
        else vacancies1 in
      (json (mk_updated ("Application " +:+ status +:+ " successfully")
               (Mongo.populate (teachers db) <$> Vacancy.applications vacancy)),
       with_vacancies vacancies2 db)
  end.

(** The [vacancy] object of an entry of GET /my-applications. *)
Record vacancy_summary := mk_vacancy_summary {
  summary_id : ObjectId;
  summary_descr : Vacancy.content;
  summary_status : string
}.

(** An entry of GET /my-applications. *)
Record my_application := mk_my_application {
  my_id : ObjectId;
  my_vacancy : vacancy_summary;
  my_status : string;
  my_appliedAt : option Z
}.

(** GET /my-applications: the vacancies where the teacher of the request
    has applied, each with the first application of that teacher found in
    it. Reading [application._id] throws when [find] returned undefined;
    the catch then answers 500. *)
Definition my_applications (typeError : string) (userId : ObjectId) (db : DB)
    : reply (list my_application) :=
  try_catch
    (let vacancies :=
       Mongo.find
         (λ v, Exists (λ a, Application.teacher a = userId)
                      (Vacancy.applications v))
         (vacancies db) in
     applications ←
       mapM (λ vacancy,
               application ←
                 property_of typeError
                   (Mongo.findOne (λ app, Application.teacher app = userId)
                      (Vacancy.applications vacancy));
               mret (mk_my_application
                       (Application._id application)
                       (mk_vacancy_summary (Vacancy._id vacancy)
                          (Vacancy.descr vacancy) (Vacancy.status vacancy))
                       (Application.status application)
                       (Application.appliedAt application)))
            vacancies;
     mret (json applications))
    (λ _, status_json 500 "Error fetching applications").

(** GET /check-featured: the number of featured vacancies whose status is
    'active'. *)
Definition check_featured (db : DB) : reply nat :=
  json (Mongo.countDocuments
          (λ v, Vacancy.featured v = true ∧ Vacancy.status v = "active")
          (vacancies db)).

(** GET /vacancy-applicants/:id: the populated applications of the
    vacancy. *)
Definition vacancy_applicants (vacancyId : ObjectId) (db : DB)
    : reply (list Populated.t) :=
  match Mongo.findById vacancyId (vacancies db) with
  | None => status_json 404 "Vacancy not found"
  | Some vacancy =>
      json (Mongo.populate (teachers db) <$> Vacancy.applications vacancy)
  end.

(** [ALLOWED_TYPES]: the mime types accepted for each file field of the
    signup form. The object literal is read by its own keys, the names of
    the form's file fields. *)
Definition ALLOWED_TYPES : list (string * list string) :=
  [("cv",
    ["application/pdf"; "application/msword";
     "application/vnd.openxmlformats-officedocument.wordprocessingml.document"]);
   ("certificates",
    ["application/pdf"; "application/msword";
     "application/vnd.openxmlformats-officedocument.wordprocessingml.document";
     "image/jpeg"; "image/png"])].

(** What [fileFilter] passes to its callback: [cb(null, true)] or
    [cb(new Error(message), false)]. *)
Inductive filtered :=
| accepted
| refused (message : string).

(** [fileFilter(req, file, cb)], on [file.fieldname] and [file.mimetype]. *)
Definition fileFilter (fieldname mimetype : string) : filtered :=
  match list_find (λ entry, entry.1 = fieldname) ALLOWED_TYPES with
  | None => refused ("Unexpected field: " +:+ fieldname)
  | Some (_, (_, types)) =>
      if decide (mimetype ∈ types) then accepted
      else refused ("Invalid file type for " +:+ fieldname
                    +:+ ". Allowed types: " +:+ String.concat ", " types)
  end.

End TeacherApply.

(** ** routes/vacancyRoutes.js *)

Module VacancyRoutes.

(* The handler this file registers for GET /available-vacancies comes
   after the one for GET /:id, which answers that path first; it is never
   run and is not embedded. *)

(** POST /apply-vacancy/:id. The pushed object has no [appliedAt]; the
    success body is a message only. *)
Definition apply_vacancy (newId : ObjectId) (vacancyId teacherId : ObjectId)
    (db : DB) : reply string * DB :=
  match Mongo.findOne
          (λ v, Vacancy._id v = vacancyId ∧ Vacancy.status v = "open")
          (vacancies db) with
  | None => (NotFoundOrNotOpen, db)
  | Some vacancy =>
      let alreadyApplied :=
        Exists (λ app, Application.teacher app = teacherId)
               (Vacancy.applications vacancy) in
      if decide alreadyApplied then (DuplicateApplication, db)
      else if decide (5 ≤ length (Vacancy.applications vacancy))
      then (CapacityExceeded, db)
      else
        let vacancy :=
          Vacancy.set_applications
            (Vacancy.applications vacancy
               ++ [Application.mk newId teacherId "pending" None]) vacancy in
        (json "Application submitted successfully",
         with_vacancies (Mongo.save vacancy (vacancies db)) db)
  end.

(** PUT /:vacancyId/applications/:applicationId/status. *)
Definition application_status (vacancyId applicationId : ObjectId)
    (status : string) (db : DB) : reply string * DB :=
  match Mongo.findOneAndUpdate
          (λ v, Vacancy._id v = vacancyId
                ∧ Exists (λ a, Application._id a = applicationId)
                         (Vacancy.applications v))
          (Vacancy.set_applications_with
             (Mongo.positional applicationId (Application.set_status status)))
          (vacancies db) with
  | (None, _) => (VacancyOrApplicationNotFound, db)
  | (Some _, vacancies1) =>
      (json "Application status updated successfully",
       with_vacancies vacancies1 db)
  end.

(** The lean object left by
    [.select('title subject description requirements salary _id featured status')]. *)
Record featured_vacancy := mk_featured_vacancy {
  featured_id : ObjectId;
  featured_descr : Vacancy.content;
  featured_flag : bool;
  featured_status : string
}.

(** GET /featured: the open vacancies that are featured. *)
Definition featured (db : DB) : reply (list featured_vacancy) :=
  json ((λ v, mk_featured_vacancy (Vacancy._id v) (Vacancy.descr v)
                (Vacancy.featured v) (Vacancy.status v))
        <$> Mongo.find
              (λ v, Vacancy.status v = "open" ∧ Vacancy.featured v = true)
              (vacancies db)).

(** A vacancy after [populate('applications.teacher')]. *)
Record populated_vacancy := mk_populated_vacancy {
  populated_id : ObjectId;
  populated_descr : Vacancy.content;
  populated_status : string;
  populated_featured : bool;
  populated_applications : list Populated.t
}.

(** GET /:id. The error replies of this file that carry a message only
    are written with [status_json] as well. *)
Definition get_vacancy (vacancyId : ObjectId) (db : DB) : reply populated_vacancy :=
  match Mongo.findById vacancyId (vacancies db) with
  | None => status_json 404 "Vacancy not found"
  | Some vacancy =>
      json (mk_populated_vacancy (Vacancy._id vacancy) (Vacancy.descr vacancy)
              (Vacancy.status vacancy) (Vacancy.featured vacancy)
              (Mongo.populate (teachers db) <$> Vacancy.applications vacancy))
  end.

(** DELETE /:id. *)
Definition delete_vacancy (vacancyId : ObjectId) (db : DB) : reply string * DB :=
  match Mongo.findOneAndDelete (λ v, Vacancy._id v = vacancyId) (vacancies db) with
  | (None, _) => (status_json 404 "Vacancy not found", db)
  | (Some _, vacancies1) =>
      (json "Vacancy deleted successfully", with_vacancies vacancies1 db)
  end.

(** PATCH /:id/status. *)
Definition patch_status (vacancyId : ObjectId) (status : string) (db : DB)
    : reply Vacancy.t * DB :=
  if decide (JS.toLowerCase status ∈ ["open"; "closed"])
  then
    match Mongo.findOneAndUpdate (λ v, Vacancy._id v = vacancyId)
            (Vacancy.set_status (JS.toLowerCase status)) (vacancies db) with
    | (None, _) => (status_json 404 "Vacancy not found", db)
    | (Some vacancy, vacancies1) => (json vacancy, with_vacancies vacancies1 db)
    end
  else
    (status_json 400
       ("Invalid status. Must be either " +:+ JS.quote +:+ "open" +:+ JS.quote
        +:+ " or " +:+ JS.quote +:+ "closed" +:+ JS.quote),
     db).

(** An entry of GET /:id/applicants: the fields copied from the populated
    teacher document, with the status and date of the application. *)
Record applicant := mk_applicant {
  applicant_teacher : Teacher.t;
  applicant_status : string;
  applicant_appliedAt : option Z
}.

(** GET /:id/applicants. The handler logs [vacancy.applications] before it
    tests [!vacancy]; the catch answers 500 with the message of the error.
    [.filter(app => app && app.teacher).map(...)] keeps the applications
    whose teacher resolved. *)
Definition applicants (typeError : string) (vacancyId : ObjectId) (db : DB)
    : reply (list applicant) :=
  try_catch
    (let vacancy := Mongo.findById vacancyId (vacancies db) in
     _ ← property_of typeError (Vacancy.applications <$> vacancy);
     match vacancy with
     | None => mret (json [])
     | Some vacancy =>
         mret (json (omap (λ app,
                             (λ teacher,
                                mk_applicant teacher (Populated.status app)
                                  (Populated.appliedAt app))
                             <$> Populated.teacher app)
                          (Mongo.populate (teachers db)
                             <$> Vacancy.applications vacancy)))
     end)
    (λ message, status_json 500 message).

End VacancyRoutes.

(** ** The specification's wording of the listing *)

(** [listAvailable(teacherId)] as the specification words it: open, fewer
    than five applications, none of them by the teacher. *)
Definition listAvailable_spec (teacherId : ObjectId) (v : Vacancy.t) : Prop :=
  Vacancy.status v = "open"
  ∧ length (Vacancy.applications v) < 5
  ∧ ¬ ∃ a, a ∈ Vacancy.applications v ∧ Application.teacher a = teacherId.

(** ** Sample databases *)

Module Sample.
Definition teacher_doc (id : ObjectId) : Teacher.t :=
  Teacher.mk id ("Teacher " +:+ id).

Definition staff : list Teacher.t :=
  teacher_doc <$> ["t1"; "t2"; "t3"; "t4"; "t5"; "t6"].

Definition maths : Vacancy.content :=
  Vacancy.mk_content "Maths tutor" "Maths" "Grade 9" "BSc" "15000".

Definition app (id teacher status : string) : Application.t :=
  Application.mk id teacher status (Some 1700000000000%Z).

Definition one_vacancy (status : string) (apps : list Application.t) : DB :=
  mkDB staff [Vacancy.mk "v1" maths status false apps].

(** An open vacancy that already holds five applications, one of them
    rejected: what PATCH /:id/status leaves after reopening a vacancy
    that filled up. *)
Definition reopened_full : DB :=
  one_vacancy "open"
    [app "a1" "t1" "pending"; app "a2" "t2" "pending";
     app "a3" "t3" "rejected"; app "a4" "t4" "pending";
     app "a5" "t5" "pending"].

(** Scenario B: four pending applications on an open vacancy. *)
Definition four_pending : DB :=
  one_vacancy "open"
    [app "a1" "t1" "pending"; app "a2" "t2" "pending";
     app "a3" "t3" "pending"; app "a4" "t4" "pending"].

(** Scenario C: three pending applications on an open vacancy. *)
Definition three_pending : DB :=
  one_vacancy "open"
    [app "a1" "t1" "pending"; app "a2" "t2" "pending";
     app "a3" "t3" "pending"].

(** Scenario C after t1 was accepted. *)
Definition decided : DB :=
  one_vacancy "closed"
    [app "a1" "t1" "accepted"; app "a2" "t2" "rejected";
     app "a3" "t3" "rejected"].

(** Two open vacancies and a closed one. *)
Definition listing : DB :=
  mkDB staff
    [Vacancy.mk "v1" maths "open" false [app "a1" "t1" "pending"];
     Vacancy.mk "v2" maths "open" true [app "a2" "t2" "rejected"];
     Vacancy.mk "v3" maths "closed" false []].
(** A vacancy with an application whose teacher document is gone, and a
    featured open vacancy. *)
Definition dangling : DB :=
  mkDB staff
    [Vacancy.mk "v1" maths "open" false
       [app "a1" "t1" "pending"; app "a2" "t9" "pending";
        app "a3" "t3" "rejected"];
     Vacancy.mk "v2" maths "open" true [app "a4" "t1" "pending"]].
(** A closed vacancy that holds five applications, one of them accepted. *)
Definition closed_full : DB :=
  one_vacancy "closed"
    [app "a1" "t1" "accepted"; app "a2" "t2" "rejected";
     app "a3" "t3" "rejected"; app "a4" "t4" "rejected";
     app "a5" "t5" "rejected"].
End Sample.

(** ** Vocabulary of the statements *)

(** The query [{ _id: vacancyId, status: 'open' }]. *)
Abbreviation open_vacancy vacancyId :=
  (λ v, Vacancy._id v = vacancyId ∧ Vacancy.status v = "open").

(** The query [{ 'applications._id': applicationId }]. *)
Abbreviation holds_application applicationId :=
  (λ v, Exists (λ a, Application._id a = applicationId) (Vacancy.applications v)).

(** The capacity bound of the specification, on one vacancy. *)
Definition within_capacity (v : Vacancy.t) : Prop :=
  length (Vacancy.applications v) ≤ 5.

(** The document teacherApply.js saves: the loaded vacancy with the new
    pending application pushed, closed when that makes five. *)
Definition TeacherApply_saved (now : Z) (newId teacherId : ObjectId)
    (v : Vacancy.t) : Vacancy.t :=
  let pushed :=
    Vacancy.applications v
      ++ [Application.mk newId teacherId "pending" (Some now)] in
  let v := Vacancy.set_applications pushed v in
  if decide (length pushed = 5) then Vacancy.set_status "closed" v else v.

(** The document vacancyRoutes.js saves: the push alone. *)
Definition VacancyRoutes_saved (newId teacherId : ObjectId)
    (v : Vacancy.t) : Vacancy.t :=
  Vacancy.set_applications
    (Vacancy.applications v ++ [Application.mk newId teacherId "pending" None]) v.

(** The statuses a vacancy is meant to have. *)
Definition known_status (v : Vacancy.t) : Prop :=
  Vacancy.status v = "open" ∨ Vacancy.status v = "closed".

(** No teacher has two applications on the vacancy. *)
Definition unique_teachers (v : Vacancy.t) : Prop :=
  NoDup (Application.teacher <$> Vacancy.applications v).

(** What a status update leaves of an application: everything but the
    status. *)
Definition application_identity (a : Application.t)
    : ObjectId * ObjectId * option Z :=
  (Application._id a, Application.teacher a, Application.appliedAt a).

(** What a status update leaves of a vacancy: everything but the
    statuses of its applications and its own. *)
Definition vacancy_identity (v : Vacancy.t)
    : ObjectId * Vacancy.content * bool * list (ObjectId * ObjectId * option Z) :=
  (Vacancy._id v, Vacancy.descr v, Vacancy.featured v,
   application_identity <$> Vacancy.applications v).

(** * Properties *)

(** ** The store operations *)

Section mongo_facts.
Context {D : Type} (q : D → Prop) `{!∀ d, Decision (q d)}.
Implicit Types (c : list D) (u : D → D).

Lemma findOne_Some c d :
  Mongo.findOne q c = Some d ↔ ∃ i, list_find q c = Some (i, d).
Proof.
  unfold Mongo.findOne. destruct (list_find q c) as [[i x]|]; simpl.
  - split; [intros [= ->]; eauto | intros [j [= _ ->]]; done].
  - split; [done | intros [? ?]; done].
Qed.

Lemma findOne_None c :
  Mongo.findOne q c = None ↔ Forall (λ d, ¬ q d) c.
Proof.
  unfold Mongo.findOne. split.
  - intros Hn. apply (proj1 (list_find_None q c)).
    by destruct (list_find q c).
  - intros Hn. by rewrite (proj2 (list_find_None q c) Hn).
Qed.

Lemma updateOne_found u c i d :
  list_find q c = Some (i, d) → Mongo.updateOne q u c = alter u i c.
Proof. unfold Mongo.updateOne. by intros ->. Qed.

Lemma updateOne_absent u c :
  list_find q c = None → Mongo.updateOne q u c = c.
Proof. unfold Mongo.updateOne. by intros ->. Qed.

Lemma updateOne_length u c : length (Mongo.updateOne q u c) = length c.
Proof.
  unfold Mongo.updateOne. destruct (list_find q c) as [[i x]|]; [|done].
  apply length_alter.
Qed.

(** A position of the collection holds, after [updateOne], the same
    document or its update. *)
Lemma updateOne_lookup u c k d :
  c !! k = Some d →
  Mongo.updateOne q u c !! k = Some d ∨ Mongo.updateOne q u c !! k = Some (u d).
Proof.
  intros Hk. unfold Mongo.updateOne.
  destruct (list_find q c) as [[i x]|]; [|by left].
  destruct (decide (i = k)) as [->|Hne].
  - right. by rewrite list_lookup_alter_eq, Hk.
  - left. by rewrite list_lookup_alter_ne.
Qed.

Lemma updateOne_Forall (P : D → Prop) u c :
  (∀ d, P d → P (u d)) → Forall P c → Forall P (Mongo.updateOne q u c).
Proof.
  intros Hu Hc. apply Forall_lookup. intros k d' Hk.
  destruct (lookup_lt_is_Some_2 c k) as [d Hd].
  { rewrite <- (updateOne_length u). by eapply lookup_lt_Some. }
  pose proof (Forall_lookup_1 _ _ _ _ Hc Hd) as HP.
  destruct (updateOne_lookup u c k d Hd) as [Hs|Hs];
    rewrite Hs in Hk; injection Hk as <-; auto.
Qed.
End mongo_facts.

(** In a collection whose [_id]s are pairwise distinct, a query by [_id]
    finds the document stored under it. *)
Lemma list_find_by_id (c : list Vacancy.t) k v vacancyId :
  NoDup (Vacancy._id <$> c) → c !! k = Some v → Vacancy._id v = vacancyId →
  list_find (λ d, Vacancy._id d = vacancyId) c = Some (k, v).
Proof.
  intros Hnd Hk Hid. apply list_find_Some. split_and!; [done..|].
  intros j y Hj Hlt Heq.
  assert (j = k); [|lia].
  eapply NoDup_lookup; [exact Hnd| |].
  - rewrite list_lookup_fmap, Hj. reflexivity.
  - rewrite list_lookup_fmap, Hk. simpl. congruence.
Qed.

(** ** Array updates keep the number of applications *)

Lemma positional_length applicationId u apps :
  length (Mongo.positional applicationId u apps) = length apps.
Proof. apply updateOne_length. Qed.

Lemma filtered_length (f : Application.t → Prop) `{!∀ a, Decision (f a)} u apps :
  length (Mongo.filtered f u apps) = length apps.
Proof. apply length_fmap. Qed.

Lemma set_update_applications_length applicationId status v :
  length (Vacancy.applications (TeacherApply.set_update applicationId status v))
  = length (Vacancy.applications v).
Proof.
  unfold TeacherApply.set_update. case_decide; simpl; apply positional_length.
Qed.

Lemma reject_others_applications_length applicationId v :
  length (Vacancy.applications (TeacherApply.reject_others applicationId v))
  = length (Vacancy.applications v).
Proof. apply filtered_length. Qed.

(** Neither status handler changes how many applications a vacancy holds. *)
Lemma TeacherApply_application_status_capacity applicationId status db :
  Forall within_capacity (vacancies db) →
  Forall within_capacity
    (vacancies (TeacherApply.application_status applicationId status db).2).
Proof.
  intros Hcap. unfold TeacherApply.application_status, Mongo.findOneAndUpdate.
  destruct (Mongo.findOne _ (vacancies db)) as [v|]; simpl; [|done].
  assert (Forall within_capacity
            (Mongo.updateOne (holds_application applicationId)
               (TeacherApply.set_update applicationId status) (vacancies db)))
    as Hcap1.
  { apply updateOne_Forall; [|done]. intros d. unfold within_capacity.
    by rewrite set_update_applications_length. }
  case_decide; [|done].
  apply updateOne_Forall; [|done]. intros d. unfold within_capacity.
  by rewrite reject_others_applications_length.
Qed.

Lemma VacancyRoutes_application_status_capacity vacancyId applicationId status db :
  Forall within_capacity (vacancies db) →
  Forall within_capacity
    (vacancies (VacancyRoutes.application_status vacancyId applicationId status db).2).
Proof.
  intros Hcap. unfold VacancyRoutes.application_status, Mongo.findOneAndUpdate.
  destruct (Mongo.findOne _ (vacancies db)) as [v|]; simpl; [|done].
  apply updateOne_Forall; [|done]. intros d. unfold within_capacity.
  simpl. by rewrite positional_length.
Qed.

(** The apply handler of vacancyRoutes.js checks the count before it
    pushes, so it keeps every vacancy within capacity. *)
Lemma VacancyRoutes_apply_vacancy_capacity newId vacancyId teacherId db :
  Forall within_capacity (vacancies db) →
  Forall within_capacity
    (vacancies (VacancyRoutes.apply_vacancy newId vacancyId teacherId db).2).
Proof.
  intros Hcap. unfold VacancyRoutes.apply_vacancy.
  destruct (Mongo.findOne _ (vacancies db)) as [v|]; simpl; [|done].
  repeat case_decide; simpl; try done.
  apply updateOne_Forall; [|done]. intros _ _. unfold within_capacity. simpl.
  rewrite length_app. simpl. lia.
Qed.

(** An update that keeps the [_id] of the document it touches keeps the
    ids of the collection. *)
Lemma alter_keeps_ids (u : Vacancy.t → Vacancy.t) k (c : list Vacancy.t) :
  (∀ v, c !! k = Some v → Vacancy._id (u v) = Vacancy._id v) →
  Vacancy._id <$> alter u k c = Vacancy._id <$> c.
Proof.
  intros Hu. apply list_eq. intros j. rewrite !list_lookup_fmap.
  destruct (decide (k = j)) as [->|Hne].
  - rewrite list_lookup_alter_eq. destruct (c !! j) as [v|] eqn:Hj; [|done].
    simpl. by rewrite Hu.
  - by rewrite list_lookup_alter_ne.
Qed.

(** ** Applying to a vacancy *)

(** Both apply handlers answer the same 404 when the query for an open
    vacancy with the given id finds nothing. *)
Lemma TeacherApply_apply_vacancy_unavailable now newId vacancyId teacherId db :
  Mongo.findOne (open_vacancy vacancyId) (vacancies db) = None →
  TeacherApply.apply_vacancy now newId vacancyId teacherId db
  = (NotFoundOrNotOpen, db).
Proof. unfold TeacherApply.apply_vacancy. by intros ->. Qed.

Lemma VacancyRoutes_apply_vacancy_unavailable newId vacancyId teacherId db :
  Mongo.findOne (open_vacancy vacancyId) (vacancies db) = None →
  VacancyRoutes.apply_vacancy newId vacancyId teacherId db
  = (NotFoundOrNotOpen, db).
Proof. unfold VacancyRoutes.apply_vacancy. by intros ->. Qed.

(** An id that no vacancy carries matches no open vacancy. *)
Lemma open_vacancy_missing vacancyId (c : list Vacancy.t) :
  Mongo.findById vacancyId c = None →
  Mongo.findOne (open_vacancy vacancyId) c = None.
Proof.
  unfold Mongo.findById. rewrite !findOne_None.
  intros Hnone. eapply Forall_impl; [exact Hnone|].
  intros v Hv [Hid _]. auto.
Qed.

(** Nor does the id of a vacancy that is not open, when ids are unique. *)
Lemma open_vacancy_not_open vacancyId (c : list Vacancy.t) v :
  NoDup (Vacancy._id <$> c) →
  Mongo.findById vacancyId c = Some v →
  Vacancy.status v ≠ "open" →
  Mongo.findOne (open_vacancy vacancyId) c = None.
Proof.
  intros Hnd Hv Hst. apply findOne_None, Forall_lookup. intros j y Hj [Hid Hopen].
  apply findOne_Some in Hv as [k Hk].
  apply list_find_Some in Hk as (Hk & Hidv & _).
  assert (j = k) as ->.
  { eapply NoDup_lookup; [exact Hnd| |].
    - rewrite list_lookup_fmap, Hj. reflexivity.
    - rewrite list_lookup_fmap, Hk. simpl. congruence. }
  congruence.
Qed.

(** What the duplicate check of teacherApply.js sees after populate: the
    teacher has an application and the teacher document still resolves. *)
Lemma populated_duplicate ts (apps : list Application.t) teacherId :
  Exists (λ app, Teacher._id <$> Populated.teacher app = Some teacherId)
         (Mongo.populate ts <$> apps)
  ↔ Exists (λ a, Application.teacher a = teacherId) apps
    ∧ Exists (λ t, Teacher._id t = teacherId) ts.
Proof.
  rewrite Exists_fmap. rewrite !Exists_exists. split.
  - intros (a & Ha & Hpop). simpl in Hpop.
    destruct (Mongo.findOne _ ts) as [t|] eqn:Hfind; [|done].
    apply findOne_Some in Hfind as [i Hi].
    apply list_find_Some in Hi as (Hi & Hid & _).
    injection Hpop as Hpop. split.
    + exists a. split; [done | congruence].
    + exists t. split; [by eapply list_elem_of_lookup_2 | done].
  - intros [(a & Ha & Hteacher) (t & Ht & Hid)].
    exists a. split; [done|]. simpl.
    destruct (list_find_elem_of (λ t, Teacher._id t = Application.teacher a) ts t)
      as [[i t'] Hfind]; [done | congruence |].
    unfold Mongo.findOne. rewrite Hfind. simpl.
    apply list_find_Some in Hfind as (_ & Hid' & _). congruence.
Qed.

(** A successful apply through teacherApply.js, in a collection with
    unique ids: the vacancy found is replaced by the saved document, and
    the reply carries that document's status and populated applications. *)
Lemma TeacherApply_apply_vacancy_commits now newId vacancyId teacherId db k v :
  NoDup (Vacancy._id <$> vacancies db) →
  list_find (open_vacancy vacancyId) (vacancies db) = Some (k, v) →
  ¬ (Exists (λ a, Application.teacher a = teacherId) (Vacancy.applications v)
     ∧ Exists (λ t, Teacher._id t = teacherId) (teachers db)) →
  let saved := TeacherApply_saved now newId teacherId v in
  TeacherApply.apply_vacancy now newId vacancyId teacherId db
  = (json (TeacherApply.mk_applied "Application submitted successfully"
             (Vacancy.status saved)
             (Mongo.populate (teachers db) <$> Vacancy.applications saved)),
     with_vacancies (alter (λ _, saved) k (vacancies db)) db).
Proof.
  intros Hnd Hfind Hnodup saved.
  pose proof Hfind as (Hk & [Hid Hopen] & _)%list_find_Some.
  unfold TeacherApply.apply_vacancy, Mongo.findOne. rewrite Hfind. simpl.
  rewrite decide_False by (by rewrite populated_duplicate).
  fold (TeacherApply_saved now newId teacherId v). fold saved.
  assert (Vacancy._id saved = vacancyId) as Hsaved.
  { unfold saved, TeacherApply_saved. by case_decide. }
  unfold Mongo.save.
  rewrite (updateOne_found _ _ _ k v)
    by (apply list_find_by_id; [done..|congruence]).
  unfold Mongo.findById, Mongo.findOne.
  rewrite (list_find_by_id _ k saved vacancyId);
    [done| |by rewrite list_lookup_alter_eq, Hk|done].
  rewrite alter_keeps_ids; [done|]. intros v' Hv'. congruence.
Qed.

(** A successful apply through vacancyRoutes.js, in a collection with
    unique ids: the vacancy found is replaced by the saved document. *)
Lemma VacancyRoutes_apply_vacancy_commits newId vacancyId teacherId db k v :
  NoDup (Vacancy._id <$> vacancies db) →
  list_find (open_vacancy vacancyId) (vacancies db) = Some (k, v) →
  ¬ Exists (λ a, Application.teacher a = teacherId) (Vacancy.applications v) →
  length (Vacancy.applications v) < 5 →
  VacancyRoutes.apply_vacancy newId vacancyId teacherId db
  = (json "Application submitted successfully",
     with_vacancies
       (alter (λ _, VacancyRoutes_saved newId teacherId v) k (vacancies db)) db).
Proof.
  intros Hnd Hfind Hnodup Hroom.
  pose proof Hfind as (Hk & [Hid Hopen] & _)%list_find_Some.
  unfold VacancyRoutes.apply_vacancy, Mongo.findOne. rewrite Hfind. simpl.
  rewrite decide_False by done. rewrite decide_False by lia.
  fold (VacancyRoutes_saved newId teacherId v).
  unfold Mongo.save.
  by rewrite (updateOne_found _ _ _ k v) by (by apply list_find_by_id).
Qed.

(** teacherApply.js admits the applicant however many applications the
    open vacancy already holds: the stored list grows by one. *)
Lemma TeacherApply_apply_vacancy_grows now newId vacancyId teacherId db k v :
  NoDup (Vacancy._id <$> vacancies db) →
  list_find (open_vacancy vacancyId) (vacancies db) = Some (k, v) →
  ¬ (Exists (λ a, Application.teacher a = teacherId) (Vacancy.applications v)
     ∧ Exists (λ t, Teacher._id t = teacherId) (teachers db)) →
  ∃ v', vacancies (TeacherApply.apply_vacancy now newId vacancyId teacherId db).2
        !! k = Some v'
        ∧ length (Vacancy.applications v') = S (length (Vacancy.applications v)).
Proof.
  intros Hnd Hfind Hnodup.
  rewrite (TeacherApply_apply_vacancy_commits _ _ _ _ _ _ _ Hnd Hfind Hnodup).
  apply list_find_Some in Hfind as (Hk & _).
  eexists. split; [simpl; by rewrite list_lookup_alter_eq, Hk|].
  unfold TeacherApply_saved. case_decide; simpl; rewrite length_app; simpl; lia.
Qed.

(** The fifth application closes the vacancy in teacherApply.js, and an
    earlier one leaves its status alone. *)
Lemma TeacherApply_saved_fifth now newId teacherId v :
  length (Vacancy.applications v) = 4 →
  Vacancy.status (TeacherApply_saved now newId teacherId v) = "closed"
  ∧ length (Vacancy.applications (TeacherApply_saved now newId teacherId v)) = 5.
Proof.
  intros Hlen. unfold TeacherApply_saved.
  rewrite decide_True by (rewrite length_app; simpl; lia).
  simpl. split; [done|]. rewrite length_app. simpl. lia.
Qed.

Lemma TeacherApply_saved_earlier now newId teacherId v :
  length (Vacancy.applications v) < 4 →
  Vacancy.status (TeacherApply_saved now newId teacherId v) = Vacancy.status v.
Proof.
  intros Hlen. unfold TeacherApply_saved.
  by rewrite decide_False by (rewrite length_app; simpl; lia).
Qed.

Lemma TeacherApply_saved_applications now newId teacherId v :
  Vacancy.applications (TeacherApply_saved now newId teacherId v)
  = Vacancy.applications v
      ++ [Application.mk newId teacherId "pending" (Some now)].
Proof. unfold TeacherApply_saved. by case_decide. Qed.

(** vacancyRoutes.js never touches the status of the vacancy it saves. *)
Lemma VacancyRoutes_saved_status newId teacherId v :
  Vacancy.status (VacancyRoutes_saved newId teacherId v) = Vacancy.status v.
Proof. reflexivity. Qed.

(** *** The capacity bound *)

(** C1 (defect of teacherApply.js). The bound of five applications is not
    kept by the apply handler of teacherApply.js, which has no capacity
    check: on an open vacancy that already holds five applications (all
    vacancies within the bound), the application of a sixth teacher
    succeeds and the vacancy then holds six. *)
Theorem C1_teacherApply_sixth_application :
  let db := Sample.reopened_full in
  let r := TeacherApply.apply_vacancy 1700000000001 "a6" "v1" "t6" db in
  Forall within_capacity (vacancies db)
  ∧ is_json r.1
  ∧ (length ∘ Vacancy.applications <$> vacancies r.2) = [6]
  ∧ ¬ Forall within_capacity (vacancies r.2).
Proof.
  cbv zeta. split_and!.
  - apply Forall_singleton. unfold within_capacity. simpl. lia.
  - exact I.
  - reflexivity.
  - rewrite Forall_lookup. intros Hall.
    specialize (Hall 0 _ eq_refl). unfold within_capacity in Hall.
    vm_compute in Hall. lia.
Qed.

(** C2, as stated, fails where the applicant is already on the list: on an
    open vacancy with five applications, the teacher whose application was
    rejected is answered by the duplicate check, not by the capacity
    check. *)
Lemma C2_duplicate_answers_before_capacity :
  let db := Sample.reopened_full in
  let r := VacancyRoutes.apply_vacancy "a6" "v1" "t3" db in
  (∃ v, Mongo.findOne (open_vacancy "v1") (vacancies db) = Some v
        ∧ 5 ≤ length (Vacancy.applications v))
  ∧ r = (DuplicateApplication, db)
  ∧ r.1 ≠ CapacityExceeded.
Proof.
  cbv zeta. split_and!.
  - eexists. split; [reflexivity|]. simpl. lia.
  - reflexivity.
  - discriminate.
Qed.

(** C2 (amended). On an open vacancy that holds five or more applications,
    whatever their statuses, the apply handler of vacancyRoutes.js appends
    nothing: it fails with CapacityExceeded when the teacher has no
    application there, and with DuplicateApplication when the teacher has
    one. *)
Theorem C2_capacity_exceeded_unless_duplicate newId vacancyId teacherId db v :
  Mongo.findOne (open_vacancy vacancyId) (vacancies db) = Some v →
  5 ≤ length (Vacancy.applications v) →
  VacancyRoutes.apply_vacancy newId vacancyId teacherId db
  = (if decide (Exists (λ a, Application.teacher a = teacherId)
                       (Vacancy.applications v))
     then DuplicateApplication else CapacityExceeded,
     db).
Proof.
  intros Hfind Hfull. unfold VacancyRoutes.apply_vacancy. rewrite Hfind.
  case_decide; [done|]. by rewrite decide_True.
Qed.

(** On the reopened vacancy with five applications, teacher t6, who has no
    application there, is refused for capacity. *)
Lemma C2_capacity_exceeded_witness :
  VacancyRoutes.apply_vacancy "a6" "v1" "t6" Sample.reopened_full
  = (CapacityExceeded, Sample.reopened_full).
Proof.
  refine (C2_capacity_exceeded_unless_duplicate "a6" "v1" "t6"
            Sample.reopened_full _ eq_refl _).
  vm_compute. lia.
Defined.

(** C3 (defect of vacancyRoutes.js). The apply handler of vacancyRoutes.js
    pushes the application and saves without closing: on Scenario B (four
    pending applications, open) the fifth application is stored and the
    vacancy is left open. *)
Theorem C3_vacancyRoutes_fifth_leaves_open :
  let db := Sample.four_pending in
  let r := VacancyRoutes.apply_vacancy "a5" "v1" "t5" db in
  r.1 = json "Application submitted successfully"
  ∧ vacancies r.2
    = [Vacancy.mk "v1" Sample.maths "open" false
         [Sample.app "a1" "t1" "pending"; Sample.app "a2" "t2" "pending";
          Sample.app "a3" "t3" "pending"; Sample.app "a4" "t4" "pending";
          Application.mk "a5" "t5" "pending" None]].
Proof. cbv zeta. split; reflexivity. Qed.

(** *** The duplicate check *)

(** C4, as stated, fails on a vacancy that is no longer open: in Scenario C
    after the acceptance, the accepted teacher t1 has an entry on the closed
    vacancy, and applying again is answered by the lookup of an open
    vacancy, in both handlers, not by the duplicate check. *)
Lemma C4_closed_vacancy_answers_first :
  let db := Sample.decided in
  let ta := TeacherApply.apply_vacancy 1700000000001 "a9" "v1" "t1" db in
  let vr := VacancyRoutes.apply_vacancy "a9" "v1" "t1" db in
  (∃ v a, Mongo.findById "v1" (vacancies db) = Some v
          ∧ a ∈ Vacancy.applications v
          ∧ Application.teacher a = "t1"
          ∧ Application.status a = "accepted")
  ∧ ta = (NotFoundOrNotOpen, db) ∧ ta.1 ≠ DuplicateApplication
  ∧ vr = (NotFoundOrNotOpen, db) ∧ vr.1 ≠ DuplicateApplication.
Proof.
  cbv zeta. split_and!; try reflexivity; try discriminate.
  eexists _, (Sample.app "a1" "t1" "accepted").
  split_and!; try reflexivity. apply list_elem_of_here.
Qed.

(** C4 (amended). On an open vacancy whose application list has an entry of
    the applying teacher, whatever the status of that entry, the apply
    handler of vacancyRoutes.js fails with DuplicateApplication and leaves
    the database as it was; so does the handler of teacherApply.js when the
    teacher's document still resolves on populate. *)
Theorem C4_duplicate_on_open_vacancy now newId vacancyId teacherId db v a :
  Mongo.findOne (open_vacancy vacancyId) (vacancies db) = Some v →
  a ∈ Vacancy.applications v →
  Application.teacher a = teacherId →
  VacancyRoutes.apply_vacancy newId vacancyId teacherId db
  = (DuplicateApplication, db)
  ∧ (Exists (λ t, Teacher._id t = teacherId) (teachers db) →
     TeacherApply.apply_vacancy now newId vacancyId teacherId db
     = (DuplicateApplication, db)).
Proof.
  intros Hfind Ha Hteacher.
  assert (Exists (λ a, Application.teacher a = teacherId) (Vacancy.applications v))
    as Hdup by (apply Exists_exists; eauto).
  split.
  - unfold VacancyRoutes.apply_vacancy. rewrite Hfind. by rewrite decide_True.
  - intros Hdoc. unfold TeacherApply.apply_vacancy. rewrite Hfind.
    by rewrite decide_True by (by apply populated_duplicate).
Qed.

(** Teacher t3, whose application on the open vacancy was rejected, is
    refused as a duplicate by both handlers. *)
Lemma C4_duplicate_witness :
  VacancyRoutes.apply_vacancy "a9" "v1" "t3" Sample.reopened_full
  = (DuplicateApplication, Sample.reopened_full)
  ∧ TeacherApply.apply_vacancy 1700000000001 "a9" "v1" "t3" Sample.reopened_full
    = (DuplicateApplication, Sample.reopened_full).
Proof.
  destruct (C4_duplicate_on_open_vacancy 1700000000001 "a9" "v1" "t3"
              Sample.reopened_full _ (Sample.app "a3" "t3" "rejected")
              eq_refl) as [Hvr Hta].
  - vm_compute. do 2 apply list_elem_of_further. apply list_elem_of_here.
  - reflexivity.
  - split; [exact Hvr|]. apply Hta. vm_compute.
    do 2 apply Exists_cons_tl. apply Exists_cons_hd. reflexivity.
Defined.

(** *** Vacancies that are not open *)

(** C8, as stated, fails: the error for a closed vacancy is not distinct
    from the one for an unknown id. On the decided vacancy v1 (closed) and
    on the id v9 that no vacancy carries, each handler gives one and the
    same reply, 404 'Vacancy not found or not open'. *)
Lemma C8_closed_same_reply_as_missing :
  let db := Sample.decided in
  (∃ v, Mongo.findById "v1" (vacancies db) = Some v
        ∧ Vacancy.status v = "closed")
  ∧ Mongo.findById "v9" (vacancies db) = None
  ∧ TeacherApply.apply_vacancy 1700000000001 "a9" "v1" "t6" db
    = TeacherApply.apply_vacancy 1700000000001 "a9" "v9" "t6" db
  ∧ VacancyRoutes.apply_vacancy "a9" "v1" "t6" db
    = VacancyRoutes.apply_vacancy "a9" "v9" "t6" db.
Proof.
  cbv zeta. split_and!; try reflexivity.
  eexists. split; reflexivity.
Qed.

(** C8 (amended). For every apply call on an existing vacancy whose status
    is not open, both handlers fail with the reply 404 'Vacancy not found
    or not open', the reply an unknown vacancy id gets as well, and leave
    the database as it was. *)
Theorem C8_not_open_is_not_found_or_not_open now newId vacancyId teacherId db v :
  NoDup (Vacancy._id <$> vacancies db) →
  Mongo.findById vacancyId (vacancies db) = Some v →
  Vacancy.status v ≠ "open" →
  TeacherApply.apply_vacancy now newId vacancyId teacherId db
  = (NotFoundOrNotOpen, db)
  ∧ VacancyRoutes.apply_vacancy newId vacancyId teacherId db
    = (NotFoundOrNotOpen, db)
  ∧ ∀ missingId,
      Mongo.findById missingId (vacancies db) = None →
      TeacherApply.apply_vacancy now newId missingId teacherId db
      = (NotFoundOrNotOpen, db)
      ∧ VacancyRoutes.apply_vacancy newId missingId teacherId db
        = (NotFoundOrNotOpen, db).
Proof.
  intros Hnd Hv Hclosed.
  pose proof (open_vacancy_not_open _ _ _ Hnd Hv Hclosed) as Hnone.
  split_and!.
  - by apply TeacherApply_apply_vacancy_unavailable.
  - by apply VacancyRoutes_apply_vacancy_unavailable.
  - intros missingId Hmissing%open_vacancy_missing. split.
    + by apply TeacherApply_apply_vacancy_unavailable.
    + by apply VacancyRoutes_apply_vacancy_unavailable.
Qed.

(** Scenario D: applying to the closed vacancy. *)
Lemma C8_not_open_witness :
  TeacherApply.apply_vacancy 1700000000001 "a9" "v1" "t6" Sample.decided
  = (NotFoundOrNotOpen, Sample.decided)
  ∧ VacancyRoutes.apply_vacancy "a9" "v1" "t6" Sample.decided
    = (NotFoundOrNotOpen, Sample.decided).
Proof.
  destruct (C8_not_open_is_not_found_or_not_open 1700000000001 "a9" "v1" "t6"
              Sample.decided
              (Vacancy.mk "v1" Sample.maths "closed" false
                 [Sample.app "a1" "t1" "accepted";
                  Sample.app "a2" "t2" "rejected";
                  Sample.app "a3" "t3" "rejected"]))
    as (Hta & Hvr & _).
  - vm_compute. apply NoDup_singleton.
  - reflexivity.
  - simpl. discriminate.
  - split; [exact Hta | exact Hvr].
Defined.

(** ** Changing the status of an application *)

(** The positional update touches the first element with the id, and only
    that one. *)
Lemma positional_lookup_target applicationId u (apps : list Application.t) i a :
  list_find (λ a, Application._id a = applicationId) apps = Some (i, a) →
  Mongo.positional applicationId u apps !! i = Some (u a).
Proof.
  intros Hfind. unfold Mongo.positional.
  rewrite (updateOne_found _ _ _ _ _ Hfind).
  apply list_find_Some in Hfind as (Hi & _).
  by rewrite list_lookup_alter_eq, Hi.
Qed.

Lemma positional_lookup_other applicationId u (apps : list Application.t) j b :
  apps !! j = Some b → Application._id b ≠ applicationId →
  Mongo.positional applicationId u apps !! j = Some b.
Proof.
  intros Hj Hne. unfold Mongo.positional, Mongo.updateOne.
  destruct (list_find _ apps) as [[i a]|] eqn:Hfind; [|done].
  apply list_find_Some in Hfind as (Hi & Hid & _).
  rewrite list_lookup_alter_ne; [done|]. intros ->. congruence.
Qed.

(** A vacancy matched by the query on ['applications._id'] has a first
    application with that id. *)
Lemma holds_application_first applicationId v :
  holds_application applicationId v →
  ∃ i a, list_find (λ a, Application._id a = applicationId)
           (Vacancy.applications v) = Some (i, a).
Proof.
  intros (a & Ha & Hid)%Exists_exists.
  destruct (list_find_elem_of (λ a, Application._id a = applicationId)
              (Vacancy.applications v) a Ha Hid) as [[i a'] Hfind].
  eauto.
Qed.

Lemma set_update_id applicationId status v :
  Vacancy._id (TeacherApply.set_update applicationId status v) = Vacancy._id v.
Proof. unfold TeacherApply.set_update. by case_decide. Qed.

Lemma set_update_applications applicationId status v :
  Vacancy.applications (TeacherApply.set_update applicationId status v)
  = Mongo.positional applicationId (Application.set_status status)
      (Vacancy.applications v).
Proof. unfold TeacherApply.set_update. by case_decide. Qed.

Lemma set_update_accepted_status applicationId v :
  Vacancy.status (TeacherApply.set_update applicationId "accepted" v) = "closed".
Proof. reflexivity. Qed.

(** The cascade rewrites exactly the pending elements with another id. *)
Lemma reject_others_lookup applicationId v j :
  Vacancy.applications (TeacherApply.reject_others applicationId v) !! j
  = (λ elem, if decide (Application._id elem ≠ applicationId
                        ∧ Application.status elem = "pending")
             then Application.set_status "rejected" elem else elem)
    <$> Vacancy.applications v !! j.
Proof. simpl. unfold Mongo.filtered. apply list_lookup_fmap. Qed.

Lemma reject_others_lookup_same applicationId v j b :
  Vacancy.applications v !! j = Some b →
  Application._id b = applicationId ∨ Application.status b ≠ "pending" →
  Vacancy.applications (TeacherApply.reject_others applicationId v) !! j = Some b.
Proof.
  intros Hj Hkeep. rewrite reject_others_lookup, Hj. simpl.
  rewrite decide_False; [done|]. intros [? ?]. by destruct Hkeep.
Qed.

Lemma reject_others_lookup_pending applicationId v j b :
  Vacancy.applications v !! j = Some b →
  Application._id b ≠ applicationId → Application.status b = "pending" →
  Vacancy.applications (TeacherApply.reject_others applicationId v) !! j
  = Some (Application.set_status "rejected" b).
Proof.
  intros Hj Hne Hpending. rewrite reject_others_lookup, Hj. simpl.
  by rewrite decide_True.
Qed.

(** PUT /application-status/:applicationId when no vacancy holds the
    application, and when one does. *)
Lemma TeacherApply_application_status_absent applicationId status db :
  Mongo.findOne (holds_application applicationId) (vacancies db) = None →
  TeacherApply.application_status applicationId status db
  = (ApplicationNotFound, db).
Proof.
  intros Hnone. unfold TeacherApply.application_status, Mongo.findOneAndUpdate.
  by rewrite Hnone.
Qed.

Lemma TeacherApply_application_status_found applicationId status db k v :
  list_find (holds_application applicationId) (vacancies db) = Some (k, v) →
  let vacancy := TeacherApply.set_update applicationId status v in
  let vacancies1 :=
    alter (TeacherApply.set_update applicationId status) k (vacancies db) in
  TeacherApply.application_status applicationId status db
  = (json (TeacherApply.mk_updated
             ("Application " +:+ status +:+ " successfully")
             (Mongo.populate (teachers db) <$> Vacancy.applications vacancy)),
     with_vacancies
       (if decide (status = "accepted")
        then Mongo.updateOne (λ d, Vacancy._id d = Vacancy._id vacancy)
               (TeacherApply.reject_others applicationId) vacancies1
        else vacancies1) db).
Proof.
  intros Hfind vacancy vacancies1.
  unfold TeacherApply.application_status, Mongo.findOneAndUpdate, Mongo.findOne.
  rewrite (updateOne_found _ _ _ _ _ Hfind), Hfind. reflexivity.
Qed.

(** PUT /:vacancyId/applications/:applicationId/status, likewise. *)
Lemma VacancyRoutes_application_status_absent vacancyId applicationId status db :
  Mongo.findOne
    (λ v, Vacancy._id v = vacancyId ∧ holds_application applicationId v)
    (vacancies db) = None →
  VacancyRoutes.application_status vacancyId applicationId status db
  = (VacancyOrApplicationNotFound, db).
Proof.
  intros Hnone. unfold VacancyRoutes.application_status, Mongo.findOneAndUpdate.
  by rewrite Hnone.
Qed.

Lemma VacancyRoutes_application_status_found vacancyId applicationId status db k v :
  list_find
    (λ v, Vacancy._id v = vacancyId ∧ holds_application applicationId v)
    (vacancies db) = Some (k, v) →
  VacancyRoutes.application_status vacancyId applicationId status db
  = (json "Application status updated successfully",
     with_vacancies
       (alter (Vacancy.set_applications_with
                 (Mongo.positional applicationId (Application.set_status status)))
              k (vacancies db)) db).
Proof.
  intros Hfind.
  unfold VacancyRoutes.application_status, Mongo.findOneAndUpdate, Mongo.findOne.
  rewrite (updateOne_found _ _ _ _ _ Hfind), Hfind. reflexivity.
Qed.

(** After the two writes of teacherApply.js, the position of the vacancy
    found holds its first update, or the cascade applied to it. *)
Lemma TeacherApply_application_status_lookup applicationId status db k v :
  list_find (holds_application applicationId) (vacancies db) = Some (k, v) →
  let vacancy := TeacherApply.set_update applicationId status v in
  let after := vacancies (TeacherApply.application_status applicationId status db).2 in
  after !! k = Some vacancy
  ∨ status = "accepted"
    ∧ after !! k = Some (TeacherApply.reject_others applicationId vacancy).
Proof.
  intros Hfind vacancy after. unfold after.
  rewrite (TeacherApply_application_status_found _ _ _ _ _ Hfind). simpl.
  pose proof Hfind as (Hk & _)%list_find_Some.
  assert (alter (TeacherApply.set_update applicationId status) k (vacancies db) !! k
          = Some vacancy) as Hk1 by (by rewrite list_lookup_alter_eq, Hk).
  case_decide as Hacc; [|by left].
  destruct (updateOne_lookup
              (λ d, Vacancy._id d
                    = Vacancy._id (TeacherApply.set_update applicationId status v))
              (TeacherApply.reject_others applicationId) _ _ _ Hk1) as [Hs|Hs].
  - by left.
  - by right.
Qed.

(** *** Acceptance *)

(** C5. Accepting an application through PUT /application-status, in a
    collection with unique vacancy ids: the committed vacancy is closed, the
    target application is accepted, every application with another id that
    was pending is rejected, and every one that was rejected (or in any
    state other than pending) is unchanged. The handler does not look at
    the target's current status, so this holds in particular when it is
    pending. *)
Theorem C5_acceptance_cascades applicationId db k v i a :
  NoDup (Vacancy._id <$> vacancies db) →
  list_find (holds_application applicationId) (vacancies db) = Some (k, v) →
  list_find (λ a, Application._id a = applicationId) (Vacancy.applications v)
  = Some (i, a) →
  Application.status a = "pending" →
  let r := TeacherApply.application_status applicationId "accepted" db in
  is_json r.1
  ∧ ∃ v', vacancies r.2 !! k = Some v'
      ∧ Vacancy._id v' = Vacancy._id v
      ∧ Vacancy.status v' = "closed"
      ∧ length (Vacancy.applications v') = length (Vacancy.applications v)
      ∧ Vacancy.applications v' !! i = Some (Application.set_status "accepted" a)
      ∧ ∀ j b,
          Vacancy.applications v !! j = Some b →
          Application._id b ≠ applicationId →
          (Application.status b = "pending" →
           Vacancy.applications v' !! j
           = Some (Application.set_status "rejected" b))
          ∧ (Application.status b = "rejected" →
             Vacancy.applications v' !! j = Some b).
Proof.
  intros Hnd Hfind Htarget _ r. unfold r.
  rewrite (TeacherApply_application_status_found _ _ _ _ _ Hfind). simpl.
  split; [exact I|].
  pose proof Hfind as (Hk & _)%list_find_Some.
  set (vacancy := TeacherApply.set_update applicationId "accepted" v).
  set (vacancies1 := alter _ k (vacancies db)).
  assert (vacancies1 !! k = Some vacancy) as Hk1.
  { unfold vacancies1. by rewrite list_lookup_alter_eq, Hk. }
  assert (NoDup (Vacancy._id <$> vacancies1)) as Hnd1.
  { unfold vacancies1. rewrite alter_keeps_ids; [done|].
    intros ? _. apply set_update_id. }
  rewrite (updateOne_found _ _ _ k vacancy)
    by (by apply list_find_by_id).
  exists (TeacherApply.reject_others applicationId vacancy).
  split_and!.
  - by rewrite list_lookup_alter_eq, Hk1.
  - reflexivity.
  - reflexivity.
  - rewrite reject_others_applications_length.
    apply set_update_applications_length.
  - apply reject_others_lookup_same; [|by right].
    unfold vacancy. rewrite set_update_applications.
    by apply positional_lookup_target.
  - intros j b Hj Hne.
    assert (Vacancy.applications vacancy !! j = Some b) as Hj1.
    { unfold vacancy. rewrite set_update_applications.
      by apply positional_lookup_other. }
    split; intros Hst.
    + by apply reject_others_lookup_pending.
    + apply reject_others_lookup_same; [done|]. right. by rewrite Hst.
Qed.

(** Scenario C: T1 accepted, T2 and T3 rejected, V closed. *)
Lemma C5_acceptance_witness :
  let r := TeacherApply.application_status "a1" "accepted" Sample.three_pending in
  ∃ v', vacancies r.2 !! 0 = Some v'
    ∧ Vacancy.status v' = "closed"
    ∧ Vacancy.applications v' !! 0 = Some (Sample.app "a1" "t1" "accepted")
    ∧ Vacancy.applications v' !! 1 = Some (Sample.app "a2" "t2" "rejected")
    ∧ Vacancy.applications v' !! 2 = Some (Sample.app "a3" "t3" "rejected").
Proof.
  cbv zeta.
  destruct (C5_acceptance_cascades "a1" Sample.three_pending 0
              (Vacancy.mk "v1" Sample.maths "open" false
                 [Sample.app "a1" "t1" "pending";
                  Sample.app "a2" "t2" "pending";
                  Sample.app "a3" "t3" "pending"])
              0 (Sample.app "a1" "t1" "pending"))
    as (_ & v' & Hv' & _ & Hclosed & _ & Htarget & Hothers).
  - vm_compute. apply NoDup_singleton.
  - reflexivity.
  - reflexivity.
  - reflexivity.
  - exists v'. split_and!; [exact Hv' | exact Hclosed | exact Htarget | |].
    + apply (Hothers 1 (Sample.app "a2" "t2" "pending"));
        [reflexivity | discriminate | reflexivity].
    + apply (Hothers 2 (Sample.app "a3" "t3" "pending"));
        [reflexivity | discriminate | reflexivity].
Defined.

(** C7, as stated, fails: there is no ConflictingAcceptance. In Scenario C
    after the acceptance of a1, accepting a2 as well succeeds, and the
    vacancy then holds two accepted applications. *)
Lemma C7_second_acceptance_succeeds :
  let db := Sample.decided in
  let r := TeacherApply.application_status "a2" "accepted" db in
  ((λ v, Application.status <$> Vacancy.applications v) <$> vacancies db)
  = [["accepted"; "rejected"; "rejected"]]
  ∧ is_json r.1
  ∧ ((λ v, Application.status <$> Vacancy.applications v) <$> vacancies r.2)
    = [["accepted"; "accepted"; "rejected"]].
Proof. cbv zeta. split_and!; [reflexivity | exact I | reflexivity]. Qed.

(** C7 (amended). When another application of the vacancy is already
    accepted, accepting the target through PUT /application-status
    succeeds all the same: the target becomes accepted and the application
    accepted before stays as it was. The handler has no check for a
    second acceptance. *)
Theorem C7_acceptance_ignores_earlier_acceptance applicationId db k v j b :
  list_find (holds_application applicationId) (vacancies db) = Some (k, v) →
  Vacancy.applications v !! j = Some b →
  Application._id b ≠ applicationId →
  Application.status b = "accepted" →
  let r := TeacherApply.application_status applicationId "accepted" db in
  is_json r.1
  ∧ ∃ i a v',
      list_find (λ a, Application._id a = applicationId)
        (Vacancy.applications v) = Some (i, a)
      ∧ vacancies r.2 !! k = Some v'
      ∧ Vacancy.applications v' !! i
        = Some (Application.set_status "accepted" a)
      ∧ Vacancy.applications v' !! j = Some b.
Proof.
  intros Hfind Hj Hne Hacc r.
  pose proof Hfind as (_ & Hholds & _)%list_find_Some.
  destruct (holds_application_first _ _ Hholds) as (i & a & Htarget).
  split.
  { unfold r. by rewrite (TeacherApply_application_status_found _ _ _ _ _ Hfind). }
  exists i, a.
  set (vacancy := TeacherApply.set_update applicationId "accepted" v).
  assert (Vacancy.applications vacancy !! i
          = Some (Application.set_status "accepted" a)) as Hi1.
  { unfold vacancy. rewrite set_update_applications.
    by apply positional_lookup_target. }
  assert (Vacancy.applications vacancy !! j = Some b) as Hj1.
  { unfold vacancy. rewrite set_update_applications.
    by apply positional_lookup_other. }
  destruct (TeacherApply_application_status_lookup _ "accepted" _ _ _ Hfind)
    as [Hk | [_ Hk]].
  - exists vacancy. by split_and!.
  - exists (TeacherApply.reject_others applicationId vacancy).
    split_and!; [done|done| |].
    + apply reject_others_lookup_same; [done | by right].
    + apply reject_others_lookup_same; [done | right; by rewrite Hacc].
Qed.

(** Accepting a2 next to the accepted a1. *)
Lemma C7_acceptance_witness :
  let r := TeacherApply.application_status "a2" "accepted" Sample.decided in
  is_json r.1
  ∧ ∃ i a v',
      list_find (λ a, Application._id a = "a2")
        [Sample.app "a1" "t1" "accepted"; Sample.app "a2" "t2" "rejected";
         Sample.app "a3" "t3" "rejected"] = Some (i, a)
      ∧ vacancies r.2 !! 0 = Some v'
      ∧ Vacancy.applications v' !! i
        = Some (Application.set_status "accepted" a)
      ∧ Vacancy.applications v' !! 0 = Some (Sample.app "a1" "t1" "accepted").
Proof.
  apply (C7_acceptance_ignores_earlier_acceptance "a2" Sample.decided 0
           (Vacancy.mk "v1" Sample.maths "closed" false
              [Sample.app "a1" "t1" "accepted";
               Sample.app "a2" "t2" "rejected";
               Sample.app "a3" "t3" "rejected"])
           0 (Sample.app "a1" "t1" "accepted")).
  - reflexivity.
  - reflexivity.
  - simpl. discriminate.
  - reflexivity.
Defined.

(** *** Transitions *)

(** C6, as stated, fails: no transition is refused. On the decided vacancy,
    teacherApply.js sets the accepted application a1 back to pending, and
    vacancyRoutes.js stores the unknown status 'on hold' on the rejected
    application a2; both calls succeed and change the application. *)
Lemma C6_any_transition_succeeds :
  let db := Sample.decided in
  let ta := TeacherApply.application_status "a1" "pending" db in
  let vr := VacancyRoutes.application_status "v1" "a2" "on hold" db in
  is_json ta.1
  ∧ (Vacancy.applications <$> vacancies ta.2)
    = [[Sample.app "a1" "t1" "pending"; Sample.app "a2" "t2" "rejected";
        Sample.app "a3" "t3" "rejected"]]
  ∧ is_json vr.1
  ∧ (Vacancy.applications <$> vacancies vr.2)
    = [[Sample.app "a1" "t1" "accepted"; Sample.app "a2" "t2" "on hold";
        Sample.app "a3" "t3" "rejected"]].
Proof. cbv zeta. split_and!; try reflexivity; exact I. Qed.

(** C6 (amended). A status update fails only when the application is not
    found: whatever status string is sent, and whatever the current status
    of the application, each of the two handlers succeeds when its query
    finds a vacancy holding the application, and otherwise answers 404 and
    leaves the database as it was. There is no InvalidTransition. *)
Theorem C6_status_update_fails_only_when_absent vacancyId applicationId status db :
  match Mongo.findOne (holds_application applicationId) (vacancies db) with
  | Some _ =>
      is_json (TeacherApply.application_status applicationId status db).1
  | None =>
      TeacherApply.application_status applicationId status db
      = (ApplicationNotFound, db)
  end
  ∧ match Mongo.findOne
            (λ v, Vacancy._id v = vacancyId ∧ holds_application applicationId v)
            (vacancies db) with
    | Some _ =>
        (VacancyRoutes.application_status vacancyId applicationId status db).1
        = json "Application status updated successfully"
    | None =>
        VacancyRoutes.application_status vacancyId applicationId status db
        = (VacancyOrApplicationNotFound, db)
    end.
Proof.
  split.
  - destruct (Mongo.findOne _ (vacancies db)) as [v|] eqn:Hfind.
    + apply findOne_Some in Hfind as [k Hfind].
      by rewrite (TeacherApply_application_status_found _ _ _ _ _ Hfind).
    + by apply TeacherApply_application_status_absent.
  - destruct (Mongo.findOne _ (vacancies db)) as [v|] eqn:Hfind.
    + apply findOne_Some in Hfind as [k Hfind].
      by rewrite (VacancyRoutes_application_status_found _ _ _ _ _ _ Hfind).
    + by apply VacancyRoutes_application_status_absent.
Qed.

(** C10. Both status handlers store the status string they are sent, as it
    is, on the first application with the given id of the vacancy their
    query finds, and report success; no set of admissible statuses is
    consulted, so any string can be stored. *)
Theorem C10_status_stored_verbatim vacancyId applicationId status db :
  (∀ k v,
     list_find (holds_application applicationId) (vacancies db) = Some (k, v) →
     let r := TeacherApply.application_status applicationId status db in
     (∃ data, r.1 = json (TeacherApply.mk_updated
                            ("Application " +:+ status +:+ " successfully")
                            data))
     ∧ ∃ i a v',
         list_find (λ a, Application._id a = applicationId)
           (Vacancy.applications v) = Some (i, a)
         ∧ vacancies r.2 !! k = Some v'
         ∧ Vacancy.applications v' !! i
           = Some (Application.mk (Application._id a) (Application.teacher a)
                     status (Application.appliedAt a)))
  ∧ (∀ k v,
       list_find
         (λ v, Vacancy._id v = vacancyId ∧ holds_application applicationId v)
         (vacancies db) = Some (k, v) →
       let r := VacancyRoutes.application_status vacancyId applicationId status db in
       r.1 = json "Application status updated successfully"
       ∧ ∃ i a v',
           list_find (λ a, Application._id a = applicationId)
             (Vacancy.applications v) = Some (i, a)
           ∧ vacancies r.2 !! k = Some v'
           ∧ Vacancy.applications v' !! i
             = Some (Application.mk (Application._id a) (Application.teacher a)
                       status (Application.appliedAt a))).
Proof.
  split; intros k v Hfind r.
  - pose proof Hfind as (_ & Hholds & _)%list_find_Some.
    destruct (holds_application_first _ _ Hholds) as (i & a & Htarget).
    split.
    { unfold r. rewrite (TeacherApply_application_status_found _ _ _ _ _ Hfind).
      eauto. }
    exists i, a.
    set (vacancy := TeacherApply.set_update applicationId status v).
    assert (Vacancy.applications vacancy !! i
            = Some (Application.set_status status a)) as Hi1.
    { unfold vacancy. rewrite set_update_applications.
      by apply positional_lookup_target. }
    destruct (TeacherApply_application_status_lookup _ status _ _ _ Hfind)
      as [Hk | [_ Hk]].
    + exists vacancy. by split_and!.
    + exists (TeacherApply.reject_others applicationId vacancy).
      split_and!; [done|done|].
      apply reject_others_lookup_same; [done|]. left. simpl.
      by apply list_find_Some in Htarget as (_ & Hid & _).
  - pose proof Hfind as (Hk & [_ Hholds] & _)%list_find_Some.
    destruct (holds_application_first _ _ Hholds) as (i & a & Htarget).
    unfold r. rewrite (VacancyRoutes_application_status_found _ _ _ _ _ _ Hfind).
    split; [done|]. exists i, a. eexists. split_and!; [done| |].
    + simpl. by rewrite list_lookup_alter_eq, Hk.
    + exact (positional_lookup_target _ (Application.set_status status)
               _ _ _ Htarget).
Qed.

(** The status 'maybe later' is stored on a2 by either handler. *)
Lemma C10_status_stored_witness :
  (∃ v', vacancies (TeacherApply.application_status "a2" "maybe later"
                      Sample.three_pending).2 !! 0 = Some v'
         ∧ Vacancy.applications v' !! 1 = Some (Sample.app "a2" "t2" "maybe later"))
  ∧ (∃ v', vacancies (VacancyRoutes.application_status "v1" "a2" "maybe later"
                        Sample.three_pending).2 !! 0 = Some v'
           ∧ Vacancy.applications v' !! 1 = Some (Sample.app "a2" "t2" "maybe later")).
Proof.
  pose proof (C10_status_stored_verbatim "v1" "a2" "maybe later"
                Sample.three_pending) as [Hta Hvr].
  split.
  - destruct (Hta 0 _ eq_refl) as (_ & i & a & v' & Htarget & Hv' & Happ).
    injection Htarget as <- <-. by exists v'.
  - destruct (Hvr 0 _ eq_refl) as (_ & i & a & v' & Htarget & Hv' & Happ).
    injection Htarget as <- <-. by exists v'.
Defined.

(** ** Listing the available vacancies *)

(** The query of teacherApply.js says what the specification says. *)
Lemma available_query_spec teacherId v :
  Vacancy.status v = "open"
  ∧ length (Vacancy.applications v) < 5
  ∧ Forall (λ a, Application.teacher a ≠ teacherId) (Vacancy.applications v)
  ↔ listAvailable_spec teacherId v.
Proof.
  unfold listAvailable_spec. rewrite Forall_forall. split.
  - intros (Hopen & Hroom & Hnone). split_and!; [done..|].
    intros (a & Ha & Hteacher). by apply (Hnone a).
  - intros (Hopen & Hroom & Hnone). split_and!; [done..|].
    intros a Ha Hteacher. apply Hnone. eauto.
Qed.

(** GET /available-vacancies of teacherApply.js returns, for the teacher of
    the request, exactly the stored vacancies that are open, hold fewer
    than five applications and have no application of that teacher: each
    entry of the reply is the selection of such a vacancy with its
    applicant count, and every such vacancy is in the reply. *)
Lemma TeacherApply_available_vacancies_exact teacherId db :
  ∃ data,
    TeacherApply.available_vacancies teacherId db = json data
    ∧ (∀ entry,
         entry ∈ data
         ↔ ∃ v, v ∈ vacancies db
                ∧ listAvailable_spec teacherId v
                ∧ entry = TeacherApply.mk_formatted (Vacancy.select v)
                            (length (Vacancy.applications v)))
    ∧ (∀ v, v ∈ vacancies db →
            TeacherApply.mk_formatted (Vacancy.select v)
              (length (Vacancy.applications v)) ∈ data
            ↔ listAvailable_spec teacherId v).
Proof.
  eexists. split; [reflexivity|].
  assert (∀ entry,
            entry ∈ (λ v, TeacherApply.mk_formatted (Vacancy.select v)
                            (length (Vacancy.applications v)))
                    <$> Mongo.find
                          (λ v, Vacancy.status v = "open"
                                ∧ length (Vacancy.applications v) < 5
                                ∧ Forall (λ a, Application.teacher a ≠ teacherId)
                                         (Vacancy.applications v))
                          (vacancies db)
            ↔ ∃ v, v ∈ vacancies db
                   ∧ listAvailable_spec teacherId v
                   ∧ entry = TeacherApply.mk_formatted (Vacancy.select v)
                               (length (Vacancy.applications v))) as Hexact.
  { intros entry. unfold Mongo.find. rewrite list_elem_of_fmap. split.
    - intros (v & -> & [Hq Hv]%list_elem_of_filter).
      exists v. by rewrite <- available_query_spec.
    - intros (v & Hv & Hspec & ->). exists v. split; [done|].
      apply list_elem_of_filter. by rewrite available_query_spec. }
  split; [exact Hexact|].
  intros v Hv. rewrite Hexact. split.
  - intros (v' & _ & Hspec & Heq).
    injection Heq as Hid Hdescr Happs Hstatus _.
    unfold listAvailable_spec in *. by rewrite Happs, Hstatus.
  - intros Hspec. eauto.
Qed.

(** C9. For every teacher and every database, GET /available-vacancies
    returns exactly the vacancies whose status is open, whose application
    list has fewer than five entries, and which hold no application of
    that teacher: every entry of the reply is the selection of such a
    stored vacancy with its applicant count, and a stored vacancy is in the
    reply if and only if it is such a vacancy. *)
Theorem C9_available_vacancies_exact teacherId db :
  ∃ data,
    TeacherApply.available_vacancies teacherId db = json data
    ∧ (∀ entry, entry ∈ data →
         ∃ v, v ∈ vacancies db
              ∧ listAvailable_spec teacherId v
              ∧ entry = TeacherApply.mk_formatted (Vacancy.select v)
                          (length (Vacancy.applications v)))
    ∧ (∀ v, v ∈ vacancies db →
            TeacherApply.mk_formatted (Vacancy.select v)
              (length (Vacancy.applications v)) ∈ data
            ↔ listAvailable_spec teacherId v).
Proof.
  destruct (TeacherApply_available_vacancies_exact teacherId db)
    as (data & Hreply & Hexact & Hmember).
  exists data. split_and!; [done| |done].
  intros entry Hentry. by apply Hexact.
Qed.

(** * Further handlers of the two files *)

(** ** Lower case *)

Lemma lower_idempotent c : JS.lower (JS.lower c) = JS.lower c.
Proof. by destruct c as [[] [] [] [] [] [] [] []]. Qed.

Lemma toLowerCase_idempotent s :
  JS.toLowerCase (JS.toLowerCase s) = JS.toLowerCase s.
Proof.
  induction s as [|c s IH]; [done|]. simpl. by rewrite lower_idempotent, IH.
Qed.

(** ** More facts on the store operations *)

(** [findOne] returns the head of what [find] returns. *)
Lemma findOne_head_find {D : Type} (q : D → Prop) `{!∀ d, Decision (q d)}
    (c : list D) :
  Mongo.findOne q c = head (Mongo.find q c).
Proof.
  unfold Mongo.findOne, Mongo.find. induction c as [|d c IH]; [done|].
  rewrite filter_cons. cbn. case_decide; [done|].
  rewrite <- IH. by destruct (list_find q c) as [[i x]|].
Qed.

Section more_mongo_facts.
Context {D : Type} (q : D → Prop) `{!∀ d, Decision (q d)}.
Implicit Types (c : list D) (u : D → D).

(** An update that keeps the answer of the query on the document it
    touches keeps what the query finds first, up to that update. *)
Lemma findOne_updateOne_same u c :
  (∀ d, q d → q (u d)) →
  Mongo.findOne q (Mongo.updateOne q u c) = u <$> Mongo.findOne q c.
Proof.
  intros Hu. unfold Mongo.findOne, Mongo.updateOne.
  destruct (list_find q c) as [[i d]|] eqn:Hfind; simpl.
  - apply list_find_Some in Hfind as (Hi & Hq & Hfirst).
    erewrite (proj2 (list_find_Some q (alter u i c) i (u d))); [done|].
    split_and!.
    + by rewrite list_lookup_alter_eq, Hi.
    + auto.
    + intros j y Hj Hlt. rewrite list_lookup_alter_ne in Hj by lia. eauto.
  - by rewrite Hfind.
Qed.

(** After [findOneAndDelete], a query that at most one document answers
    finds nothing. *)
Lemma findOneAndDelete_gone c :
  (∀ i j x y, c !! i = Some x → c !! j = Some y → q x → q y → i = j) →
  Mongo.findOne q (Mongo.findOneAndDelete q c).2 = None.
Proof.
  intros Honce. unfold Mongo.findOneAndDelete.
  destruct (list_find q c) as [[i d]|] eqn:Hfind; simpl.
  - apply list_find_Some in Hfind as (Hi & Hq & _).
    apply findOne_None, Forall_lookup. intros j y Hj Hy.
    destruct (decide (j < i)) as [Hlt|Hge].
    + rewrite list_lookup_delete_lt in Hj by done.
      specialize (Honce _ _ _ _ Hi Hj Hq Hy). lia.
    + rewrite list_lookup_delete_ge in Hj by lia.
      specialize (Honce _ _ _ _ Hi Hj Hq Hy). lia.
  - unfold Mongo.findOne. by rewrite Hfind.
Qed.

(** Deleting a document that another query does not answer leaves what
    that query finds. *)
Lemma findOne_delete_other (q' : D → Prop) `{!∀ d, Decision (q' d)} c :
  (∀ d, q d → ¬ q' d) →
  Mongo.findOne q' (Mongo.findOneAndDelete q c).2 = Mongo.findOne q' c.
Proof.
  intros Hother. unfold Mongo.findOneAndDelete.
  destruct (list_find q c) as [[i d]|] eqn:Hfind; simpl; [|done].
  apply list_find_Some in Hfind as (Hi & Hq & _).
  rewrite !findOne_head_find. unfold Mongo.find. f_equal.
  clear -Hi Hq Hother. revert i Hi.
  induction c as [|x c IH]; intros [|i] Hi; simplify_eq/=.
  - rewrite filter_cons_False; [done|]. by apply Hother.
  - rewrite !filter_cons. case_decide; [f_equal|]; by apply IH.
Qed.
End more_mongo_facts.

(** With unique ids, at most one vacancy answers a query by [_id]. *)
Lemma by_id_once (c : list Vacancy.t) vacancyId :
  NoDup (Vacancy._id <$> c) →
  ∀ i j x y, c !! i = Some x → c !! j = Some y →
             Vacancy._id x = vacancyId → Vacancy._id y = vacancyId → i = j.
Proof.
  intros Hnd i j x y Hi Hj Hx Hy.
  eapply NoDup_lookup; [exact Hnd| |].
  - rewrite list_lookup_fmap, Hi. reflexivity.
  - rewrite list_lookup_fmap, Hj. simpl. congruence.
Qed.

(** ** PATCH /:id/status *)

(** The status is compared and stored in lower case: a request in any
    letter case has the effect and the reply of the lower-case request. *)
Theorem patch_status_case_insensitive vacancyId status db :
  VacancyRoutes.patch_status vacancyId status db
  = VacancyRoutes.patch_status vacancyId (JS.toLowerCase status) db.
Proof.
  unfold VacancyRoutes.patch_status. by rewrite toLowerCase_idempotent.
Qed.

(** What PATCH does when the vacancy is there and the status is valid. *)
Lemma patch_status_found vacancyId status db k v :
  JS.toLowerCase status ∈ ["open"; "closed"] →
  list_find (λ d, Vacancy._id d = vacancyId) (vacancies db) = Some (k, v) →
  VacancyRoutes.patch_status vacancyId status db
  = (json (Vacancy.set_status (JS.toLowerCase status) v),
     with_vacancies
       (alter (Vacancy.set_status (JS.toLowerCase status)) k (vacancies db)) db).
Proof.
  intros Hvalid Hfind.
  unfold VacancyRoutes.patch_status, Mongo.findOneAndUpdate, Mongo.findOne.
  rewrite decide_True by done.
  by rewrite (updateOne_found _ _ _ _ _ Hfind), Hfind.
Qed.

(** A successful PATCH is read back by GET /:id: the vacancy has the
    lower-cased status and is otherwise as before. *)
Theorem patch_status_then_get_vacancy vacancyId status db v :
  JS.toLowerCase status ∈ ["open"; "closed"] →
  Mongo.findById vacancyId (vacancies db) = Some v →
  VacancyRoutes.get_vacancy vacancyId
    (VacancyRoutes.patch_status vacancyId status db).2
  = json (VacancyRoutes.mk_populated_vacancy
            (Vacancy._id v) (Vacancy.descr v) (JS.toLowerCase status)
            (Vacancy.featured v)
            (Mongo.populate (teachers db) <$> Vacancy.applications v)).
Proof.
  intros Hvalid Hv.
  unfold VacancyRoutes.get_vacancy, VacancyRoutes.patch_status,
    Mongo.findOneAndUpdate, Mongo.findById in *.
  rewrite decide_True by done. rewrite Hv. simpl.
  rewrite findOne_updateOne_same by done. by rewrite Hv.
Qed.

Lemma patch_status_then_get_vacancy_witness :
  VacancyRoutes.get_vacancy "v1"
    (VacancyRoutes.patch_status "v1" "Closed" Sample.three_pending).2
  = json (VacancyRoutes.mk_populated_vacancy "v1" Sample.maths "closed" false
            (Mongo.populate Sample.staff
               <$> [Sample.app "a1" "t1" "pending";
                    Sample.app "a2" "t2" "pending";
                    Sample.app "a3" "t3" "pending"])).
Proof.
  apply (patch_status_then_get_vacancy "v1" "Closed" Sample.three_pending
           (Vacancy.mk "v1" Sample.maths "open" false
              [Sample.app "a1" "t1" "pending";
               Sample.app "a2" "t2" "pending";
               Sample.app "a3" "t3" "pending"])).
  - vm_compute. apply list_elem_of_further, list_elem_of_here.
  - reflexivity.
Defined.

(** Closing a vacancy through PATCH shuts both apply handlers: they then
    answer 404 'Vacancy not found or not open' and append nothing. *)
Theorem patch_closed_blocks_apply now newId vacancyId teacherId status db v :
  NoDup (Vacancy._id <$> vacancies db) →
  Mongo.findById vacancyId (vacancies db) = Some v →
  JS.toLowerCase status = "closed" →
  let db' := (VacancyRoutes.patch_status vacancyId status db).2 in
  TeacherApply.apply_vacancy now newId vacancyId teacherId db'
  = (NotFoundOrNotOpen, db')
  ∧ VacancyRoutes.apply_vacancy newId vacancyId teacherId db'
    = (NotFoundOrNotOpen, db').
Proof.
  intros Hnd Hv Hclosed db'.
  pose proof Hv as [k Hfind]%findOne_Some.
  assert (Mongo.findOne (open_vacancy vacancyId) (vacancies db') = None) as Hnone.
  { unfold db'.
    rewrite (patch_status_found _ _ _ _ _
               ltac:(rewrite Hclosed; apply list_elem_of_further, list_elem_of_here)
               Hfind).
    simpl. rewrite Hclosed.
    apply (open_vacancy_not_open _ _ (Vacancy.set_status "closed" v)).
    - by rewrite alter_keeps_ids.
    - unfold Mongo.findById, Mongo.findOne.
      pose proof Hfind as (Hk & Hid & Hfirst)%list_find_Some.
      erewrite (proj2 (list_find_Some _ _ k (Vacancy.set_status "closed" v)));
        [done|].
      split_and!; [by rewrite list_lookup_alter_eq, Hk | done |].
      intros j y Hj Hlt. rewrite list_lookup_alter_ne in Hj by lia. eauto.
    - simpl. discriminate. }
  split.
  - by apply TeacherApply_apply_vacancy_unavailable.
  - by apply VacancyRoutes_apply_vacancy_unavailable.
Qed.

Lemma patch_closed_blocks_apply_witness :
  let db' := (VacancyRoutes.patch_status "v1" "CLOSED" Sample.three_pending).2 in
  TeacherApply.apply_vacancy 1700000000001 "a4" "v1" "t4" db'
  = (NotFoundOrNotOpen, db')
  ∧ VacancyRoutes.apply_vacancy "a4" "v1" "t4" db' = (NotFoundOrNotOpen, db').
Proof.
  apply (patch_closed_blocks_apply 1700000000001 "a4" "v1" "t4" "CLOSED"
           Sample.three_pending
           (Vacancy.mk "v1" Sample.maths "open" false
              [Sample.app "a1" "t1" "pending";
               Sample.app "a2" "t2" "pending";
               Sample.app "a3" "t3" "pending"])).
  - vm_compute. apply NoDup_singleton.
  - reflexivity.
  - reflexivity.
Defined.

(** Reopening a vacancy through PATCH lets teacherApply.js admit one more
    applicant, however many applications the vacancy holds. *)
Theorem patch_open_readmits now newId vacancyId teacherId status db k v :
  NoDup (Vacancy._id <$> vacancies db) →
  list_find (λ d, Vacancy._id d = vacancyId) (vacancies db) = Some (k, v) →
  JS.toLowerCase status = "open" →
  ¬ (Exists (λ a, Application.teacher a = teacherId) (Vacancy.applications v)
     ∧ Exists (λ t, Teacher._id t = teacherId) (teachers db)) →
  let db1 := (VacancyRoutes.patch_status vacancyId status db).2 in
  let r := TeacherApply.apply_vacancy now newId vacancyId teacherId db1 in
  is_json r.1
  ∧ ∃ v', vacancies r.2 !! k = Some v'
      ∧ length (Vacancy.applications v') = S (length (Vacancy.applications v)).
Proof.
  intros Hnd Hfind Hopen Hnodup db1 r.
  pose proof Hfind as (Hk & Hid & Hfirst)%list_find_Some.
  assert (vacancies db1
          = alter (Vacancy.set_status "open") k (vacancies db)) as Hdb1.
  { unfold db1.
    rewrite (patch_status_found _ _ _ _ _
               ltac:(rewrite Hopen; apply list_elem_of_here) Hfind).
    simpl. by rewrite Hopen. }
  assert (teachers db1 = teachers db) as Hteachers.
  { unfold db1.
    by rewrite (patch_status_found _ _ _ _ _
                  ltac:(rewrite Hopen; apply list_elem_of_here) Hfind). }
  assert (NoDup (Vacancy._id <$> vacancies db1)) as Hnd1.
  { by rewrite Hdb1, alter_keeps_ids. }
  assert (list_find (open_vacancy vacancyId) (vacancies db1)
          = Some (k, Vacancy.set_status "open" v)) as Hfind1.
  { rewrite Hdb1. apply list_find_Some. split; [|split].
    - by rewrite list_lookup_alter_eq, Hk.
    - done.
    - intros j y Hj Hlt [Hy _]. rewrite list_lookup_alter_ne in Hj by lia.
      by eapply Hfirst. }
  assert (¬ (Exists (λ a, Application.teacher a = teacherId)
               (Vacancy.applications (Vacancy.set_status "open" v))
             ∧ Exists (λ t, Teacher._id t = teacherId) (teachers db1)))
    as Hnodup1 by (by rewrite Hteachers).
  split.
  - unfold r.
    by rewrite (TeacherApply_apply_vacancy_commits _ _ _ _ _ _ _
                  Hnd1 Hfind1 Hnodup1).
  - exact (TeacherApply_apply_vacancy_grows now newId vacancyId teacherId
             db1 k _ Hnd1 Hfind1 Hnodup1).
Qed.

(** A closed vacancy with five applications, reopened and applied to. *)
Lemma patch_open_readmits_witness :
  let db1 := (VacancyRoutes.patch_status "v1" "open" Sample.closed_full).2 in
  let r := TeacherApply.apply_vacancy 1700000000001 "a6" "v1" "t6" db1 in
  is_json r.1
  ∧ ∃ v', vacancies r.2 !! 0 = Some v'
      ∧ length (Vacancy.applications v')
        = S (length [Sample.app "a1" "t1" "accepted";
                     Sample.app "a2" "t2" "rejected";
                     Sample.app "a3" "t3" "rejected";
                     Sample.app "a4" "t4" "rejected";
                     Sample.app "a5" "t5" "rejected"]).
Proof.
  refine (patch_open_readmits 1700000000001 "a6" "v1" "t6" "open"
            Sample.closed_full 0
            (Vacancy.mk "v1" Sample.maths "closed" false
               [Sample.app "a1" "t1" "accepted";
                Sample.app "a2" "t2" "rejected";
                Sample.app "a3" "t3" "rejected";
                Sample.app "a4" "t4" "rejected";
                Sample.app "a5" "t5" "rejected"]) _ _ _ _).
  - vm_compute. apply NoDup_singleton.
  - reflexivity.
  - reflexivity.
  - apply (bool_decide_unpack _). by vm_compute.
Defined.

(** ** DELETE /:id *)

(** After DELETE, with unique ids, the vacancy is gone for every handler
    that looks it up: GET /:id and a second DELETE answer 404, and a second
    DELETE changes nothing. *)
Theorem delete_vacancy_then_gone vacancyId db :
  NoDup (Vacancy._id <$> vacancies db) →
  let db' := (VacancyRoutes.delete_vacancy vacancyId db).2 in
  VacancyRoutes.get_vacancy vacancyId db' = status_json 404 "Vacancy not found"
  ∧ VacancyRoutes.delete_vacancy vacancyId db'
    = (status_json 404 "Vacancy not found", db')
  ∧ TeacherApply.vacancy_applicants vacancyId db'
    = status_json 404 "Vacancy not found".
Proof.
  intros Hnd db'.
  assert (Mongo.findById vacancyId (vacancies db') = None) as Hgone.
  { unfold db', VacancyRoutes.delete_vacancy, Mongo.findById.
    pose proof (findOneAndDelete_gone (λ v, Vacancy._id v = vacancyId)
                  (vacancies db) (by_id_once _ _ Hnd)) as Hnone.
    unfold Mongo.findOneAndDelete in *.
    by destruct (list_find _ (vacancies db)) as [[i d]|]. }
  split_and!.
  - unfold VacancyRoutes.get_vacancy. by rewrite Hgone.
  - unfold VacancyRoutes.delete_vacancy, Mongo.findOneAndDelete.
    unfold Mongo.findById, Mongo.findOne in Hgone.
    by destruct (list_find _ (vacancies db')) as [[i d]|].
  - unfold TeacherApply.vacancy_applicants. by rewrite Hgone.
Qed.

Lemma delete_vacancy_then_gone_witness :
  let db' := (VacancyRoutes.delete_vacancy "v1" Sample.listing).2 in
  VacancyRoutes.get_vacancy "v1" db' = status_json 404 "Vacancy not found"
  ∧ VacancyRoutes.delete_vacancy "v1" db'
    = (status_json 404 "Vacancy not found", db')
  ∧ TeacherApply.vacancy_applicants "v1" db'
    = status_json 404 "Vacancy not found".
Proof.
  apply (delete_vacancy_then_gone "v1" Sample.listing).
  apply (bool_decide_unpack _). by vm_compute.
Defined.

(** DELETE leaves every vacancy with another id as GET /:id showed it
    before, and removes at most one document. *)
Theorem delete_vacancy_keeps_others vacancyId otherId db :
  otherId ≠ vacancyId →
  let db' := (VacancyRoutes.delete_vacancy vacancyId db).2 in
  VacancyRoutes.get_vacancy otherId db' = VacancyRoutes.get_vacancy otherId db
  ∧ length (vacancies db) ≤ S (length (vacancies db')).
Proof.
  intros Hne db'. split.
  - unfold VacancyRoutes.get_vacancy, Mongo.findById.
    assert (teachers db' = teachers db ∧
            vacancies db'
            = (Mongo.findOneAndDelete (λ v, Vacancy._id v = vacancyId)
                 (vacancies db)).2) as [-> ->].
    { unfold db', VacancyRoutes.delete_vacancy, Mongo.findOneAndDelete.
      by destruct (list_find _ (vacancies db)) as [[i d]|]. }
    rewrite (findOne_delete_other (λ v, Vacancy._id v = vacancyId)
               (λ v, Vacancy._id v = otherId)); [done|].
    intros d Hd. congruence.
  - unfold db', VacancyRoutes.delete_vacancy, Mongo.findOneAndDelete.
    destruct (list_find _ (vacancies db)) as [[i d]|] eqn:Hfind; simpl; [|lia].
    apply list_find_Some in Hfind as (Hi & _).
    rewrite length_delete by eauto. lia.
Qed.

Lemma delete_vacancy_keeps_others_witness :
  VacancyRoutes.get_vacancy "v2" (VacancyRoutes.delete_vacancy "v1" Sample.listing).2
  = VacancyRoutes.get_vacancy "v2" Sample.listing.
Proof.
  apply (delete_vacancy_keeps_others "v1" "v2" Sample.listing). discriminate.
Defined.

(** ** Statuses of vacancies *)

(** Every handler that writes keeps the statuses of the stored vacancies
    within 'open' and 'closed': the apply and status handlers only ever
    write 'closed', PATCH writes what it has validated, DELETE writes
    nothing. *)
Theorem write_handlers_keep_known_statuses
    now newId vacancyId applicationId teacherId status db :
  Forall known_status (vacancies db) →
  Forall known_status
    (vacancies (TeacherApply.apply_vacancy now newId vacancyId teacherId db).2)
  ∧ Forall known_status
      (vacancies (VacancyRoutes.apply_vacancy newId vacancyId teacherId db).2)
  ∧ Forall known_status
      (vacancies (TeacherApply.application_status applicationId status db).2)
  ∧ Forall known_status
      (vacancies (VacancyRoutes.application_status vacancyId applicationId
                    status db).2)
  ∧ Forall known_status
      (vacancies (VacancyRoutes.patch_status vacancyId status db).2)
  ∧ Forall known_status
      (vacancies (VacancyRoutes.delete_vacancy vacancyId db).2).
Proof.
  intros Hknown. split_and!.
  - unfold TeacherApply.apply_vacancy.
    destruct (Mongo.findOne _ (vacancies db)) as [v|] eqn:Hfind; [|done].
    apply findOne_Some in Hfind as [k (Hk & _)%list_find_Some].
    pose proof (Forall_lookup_1 _ _ _ _ Hknown Hk) as Hv.
    case_decide; [done|]. cbv zeta.
    assert (Forall known_status
              (Mongo.save
                 (if decide
                       (length (Vacancy.applications v
                                  ++ [Application.mk newId teacherId "pending"
                                        (Some now)]) = 5)
                  then Vacancy.set_status "closed"
                         (Vacancy.set_applications
                            (Vacancy.applications v
                               ++ [Application.mk newId teacherId "pending"
                                     (Some now)]) v)
                  else Vacancy.set_applications
                         (Vacancy.applications v
                            ++ [Application.mk newId teacherId "pending"
                                  (Some now)]) v)
                 (vacancies db))) as Hsaved.
    { apply updateOne_Forall; [|done]. intros _ _.
      case_decide; [by right | exact Hv]. }
    simpl. by destruct (Mongo.findById _ _).
  - unfold VacancyRoutes.apply_vacancy.
    destruct (Mongo.findOne _ (vacancies db)) as [v|] eqn:Hfind; [|done].
    apply findOne_Some in Hfind as [k (Hk & _)%list_find_Some].
    pose proof (Forall_lookup_1 _ _ _ _ Hknown Hk) as Hv.
    repeat case_decide; try done. simpl.
    apply updateOne_Forall; [|done]. by intros _ _.
  - unfold TeacherApply.application_status, Mongo.findOneAndUpdate.
    destruct (Mongo.findOne _ (vacancies db)) as [v|]; simpl; [|done].
    assert (Forall known_status
              (Mongo.updateOne (holds_application applicationId)
                 (TeacherApply.set_update applicationId status) (vacancies db)))
      as Hfirst.
    { apply updateOne_Forall; [|done]. intros d Hd.
      unfold TeacherApply.set_update. case_decide; [by right | exact Hd]. }
    case_decide; [|done]. apply updateOne_Forall; [|done]. by intros d Hd.
  - unfold VacancyRoutes.application_status, Mongo.findOneAndUpdate.
    destruct (Mongo.findOne _ (vacancies db)) as [v|]; simpl; [|done].
    apply updateOne_Forall; [|done]. by intros d Hd.
  - unfold VacancyRoutes.patch_status, Mongo.findOneAndUpdate.
    case_decide as Hvalid; [|done].
    destruct (Mongo.findOne _ (vacancies db)) as [v|]; simpl; [|done].
    apply updateOne_Forall; [|done]. intros d _. unfold known_status. simpl.
    apply elem_of_cons in Hvalid as [->|Hvalid]; [by left|].
    apply elem_of_cons in Hvalid as [->|Hvalid]; [by right|].
    by apply elem_of_nil in Hvalid.
  - unfold VacancyRoutes.delete_vacancy, Mongo.findOneAndDelete.
    destruct (list_find _ (vacancies db)) as [[i d]|]; simpl; [|done].
    by apply Forall_delete.
Qed.

Lemma write_handlers_keep_known_statuses_witness :
  Forall known_status
    (vacancies (TeacherApply.apply_vacancy 1700000000001 "a5" "v1" "t5"
                  Sample.four_pending).2)
  ∧ Forall known_status
      (vacancies (VacancyRoutes.patch_status "v1" "OPEN" Sample.four_pending).2).
Proof.
  destruct (write_handlers_keep_known_statuses 1700000000001 "a5" "v1" "a1"
              "t5" "OPEN" Sample.four_pending) as (Hta & _ & _ & _ & Hpatch & _).
  - apply Forall_singleton. by left.
  - by split.
Defined.

(** ** GET /check-featured and GET /featured *)

(** A query that no document answers finds nothing. *)
Lemma find_none {D : Type} (q : D → Prop) `{!∀ d, Decision (q d)} (c : list D) :
  Forall (λ d, ¬ q d) c → Mongo.find q c = [].
Proof.
  intros Hnone. apply elem_of_nil_inv. intros d [Hq Hd]%list_elem_of_filter.
  by apply (Forall_forall (λ d, ¬ q d) c) in Hd.
Qed.

(** GET /check-featured counts the featured vacancies whose status is
    'active'. With the statuses the write handlers keep, it answers 0
    whatever is featured, while GET /featured lists every featured open
    vacancy. *)
Theorem check_featured_counts_nothing db :
  Forall known_status (vacancies db) →
  TeacherApply.check_featured db = json 0
  ∧ ∃ listed,
      VacancyRoutes.featured db = json listed
      ∧ ∀ v, v ∈ vacancies db → Vacancy.featured v = true →
             Vacancy.status v = "open" →
             VacancyRoutes.mk_featured_vacancy (Vacancy._id v)
               (Vacancy.descr v) true "open" ∈ listed.
Proof.
  intros Hknown. split.
  - unfold TeacherApply.check_featured, Mongo.countDocuments. f_equal.
    fold (Mongo.find
            (λ v, Vacancy.featured v = true ∧ Vacancy.status v = "active")
            (vacancies db)).
    rewrite find_none; [done|].
    eapply Forall_impl; [exact Hknown|].
    intros v [Hv|Hv] [_ Hactive]; congruence.
  - eexists. split; [reflexivity|]. intros v Hv Hfeatured Hopen.
    apply list_elem_of_fmap. exists v. split.
    + by rewrite Hfeatured, Hopen.
    + unfold Mongo.find. by apply list_elem_of_filter.
Qed.

Lemma check_featured_counts_nothing_witness :
  TeacherApply.check_featured Sample.dangling = json 0
  ∧ ∃ listed,
      VacancyRoutes.featured Sample.dangling = json listed
      ∧ VacancyRoutes.mk_featured_vacancy "v2" Sample.maths true "open" ∈ listed.
Proof.
  destruct (check_featured_counts_nothing Sample.dangling)
    as (Hzero & listed & Hlisted & Hin).
  - repeat apply Forall_cons_2; [by left | by left | apply Forall_nil_2].
  - split; [exact Hzero|]. exists listed. split; [exact Hlisted|].
    apply (Hin (Vacancy.mk "v2" Sample.maths "open" true
                  [Sample.app "a4" "t1" "pending"])); try reflexivity.
    apply list_elem_of_further, list_elem_of_here.
Defined.

(** ** Populate *)

(** Populate resolves the teacher of an application exactly when a
    teacher document has that id, and then to a document with that id. *)
Lemma populate_teacher_Some ts a t :
  Populated.teacher (Mongo.populate ts a) = Some t →
  Teacher._id t = Application.teacher a ∧ t ∈ ts.
Proof.
  simpl. intros [i (Hi & Hid & _)%list_find_Some]%findOne_Some.
  split; [done|]. by eapply list_elem_of_lookup_2.
Qed.

Lemma populate_teacher_is_Some ts a :
  is_Some (Populated.teacher (Mongo.populate ts a))
  ↔ Exists (λ t, Teacher._id t = Application.teacher a) ts.
Proof.
  split.
  - intros [t [Hid Ht]%populate_teacher_Some]. apply Exists_exists. eauto.
  - intros (t & Ht & Hid)%Exists_exists. simpl.
    destruct (list_find_elem_of (λ t, Teacher._id t = Application.teacher a)
                ts t Ht Hid) as [[i t'] Hfind].
    unfold Mongo.findOne. rewrite Hfind. by eexists.
Qed.

(** ** GET /:id/applicants *)

(** The list GET /:id/applicants builds from the applications of a
    vacancy: the applications whose teacher resolves, in their order, each
    with the id of its teacher and its own status and date. *)
Lemma applicants_of_applications ts (apps : list Application.t) :
  (λ p, (Teacher._id (VacancyRoutes.applicant_teacher p),
         VacancyRoutes.applicant_status p,
         VacancyRoutes.applicant_appliedAt p))
  <$> omap (λ app,
              (λ teacher,
                 VacancyRoutes.mk_applicant teacher (Populated.status app)
                   (Populated.appliedAt app))
              <$> Populated.teacher app)
           (Mongo.populate ts <$> apps)
  = (λ a, (Application.teacher a, Application.status a, Application.appliedAt a))
    <$> filter (λ a, Exists (λ t, Teacher._id t = Application.teacher a) ts) apps.
Proof.
  induction apps as [|a apps IH]; [done|].
  rewrite fmap_cons, filter_cons. cbn [omap list_omap].
  destruct (Populated.teacher (Mongo.populate ts a)) as [t|] eqn:Hteacher.
  - rewrite decide_True
      by (apply populate_teacher_is_Some; rewrite Hteacher; by eexists).
    apply populate_teacher_Some in Hteacher as [Hid _].
    cbn. rewrite Hid. f_equal. exact IH.
  - rewrite decide_False; [exact IH|].
    intros His%populate_teacher_is_Some. rewrite Hteacher in His.
    by destruct His.
Qed.

(** For a vacancy id that is not stored, GET /:id/applicants answers 500
    with the engine's TypeError message, never the empty list its
    [!vacancy] branch would send: the handler has read
    [vacancy.applications] before. The empty list is the answer only for
    a stored vacancy none of whose applications has a teacher that
    resolves. *)
Theorem applicants_empty_list typeError vacancyId db :
  (Mongo.findById vacancyId (vacancies db) = None →
   VacancyRoutes.applicants typeError vacancyId db = status_json 500 typeError)
  ∧ (VacancyRoutes.applicants typeError vacancyId db = json []
     ↔ ∃ v, Mongo.findById vacancyId (vacancies db) = Some v
            ∧ Forall (λ a, ¬ Exists (λ t, Teacher._id t = Application.teacher a)
                             (teachers db))
                     (Vacancy.applications v)).
Proof.
  unfold VacancyRoutes.applicants.
  destruct (Mongo.findById vacancyId (vacancies db)) as [v|]; simpl.
  - split; [done|]. split.
    + intros [= Hnil]. exists v. split; [done|].
      apply (f_equal (fmap (λ p, (Teacher._id (VacancyRoutes.applicant_teacher p),
                                   VacancyRoutes.applicant_status p,
                                   VacancyRoutes.applicant_appliedAt p)))) in Hnil.
      rewrite applicants_of_applications in Hnil. simpl in Hnil.
      apply fmap_nil_inv in Hnil.
      apply Forall_forall. intros a Ha Hresolves.
      eapply filter_nil_not_elem_of; [exact Hnil| |exact Ha]. exact Hresolves.
    + intros (v' & [= <-] & Hnone). f_equal.
      apply fmap_nil_inv
        with (f := λ p, (Teacher._id (VacancyRoutes.applicant_teacher p),
                         VacancyRoutes.applicant_status p,
                         VacancyRoutes.applicant_appliedAt p)).
      rewrite applicants_of_applications.
      fold (Mongo.find
              (λ a, Exists (λ t, Teacher._id t = Application.teacher a)
                           (teachers db)) (Vacancy.applications v)).
      by rewrite find_none.
  - split; [done|]. split; [done|]. by intros (v & [=] & _).
Qed.

(** For a stored vacancy, GET /:id/applicants lists the applications whose
    teacher document exists, in their order, with the teacher's id and the
    application's status and date; an application whose teacher is gone is
    left out. *)
Theorem applicants_are_resolved_applications typeError vacancyId db v :
  Mongo.findById vacancyId (vacancies db) = Some v →
  ∃ listed,
    VacancyRoutes.applicants typeError vacancyId db = json listed
    ∧ (λ p, (Teacher._id (VacancyRoutes.applicant_teacher p),
             VacancyRoutes.applicant_status p,
             VacancyRoutes.applicant_appliedAt p)) <$> listed
      = (λ a, (Application.teacher a, Application.status a,
               Application.appliedAt a))
        <$> filter (λ a, Exists (λ t, Teacher._id t = Application.teacher a)
                                (teachers db))
                   (Vacancy.applications v)
    ∧ length listed ≤ length (Vacancy.applications v).
Proof.
  intros Hv. unfold VacancyRoutes.applicants. rewrite Hv. simpl.
  eexists. split; [reflexivity|]. split.
  - apply applicants_of_applications.
  - rewrite <- (length_fmap
                  (λ p, (Teacher._id (VacancyRoutes.applicant_teacher p),
                         VacancyRoutes.applicant_status p,
                         VacancyRoutes.applicant_appliedAt p))).
    rewrite applicants_of_applications, length_fmap. apply length_filter.
Qed.

(** On the sample, the application of the unknown teacher t9 is left out. *)
Lemma applicants_are_resolved_applications_witness :
  ∃ listed,
    VacancyRoutes.applicants "TypeError" "v1" Sample.dangling = json listed
    ∧ (λ p, (Teacher._id (VacancyRoutes.applicant_teacher p),
             VacancyRoutes.applicant_status p,
             VacancyRoutes.applicant_appliedAt p)) <$> listed
      = [("t1", "pending", Some 1700000000000%Z);
         ("t3", "rejected", Some 1700000000000%Z)].
Proof.
  destruct (applicants_are_resolved_applications "TypeError" "v1"
              Sample.dangling
              (Vacancy.mk "v1" Sample.maths "open" false
                 [Sample.app "a1" "t1" "pending";
                  Sample.app "a2" "t9" "pending";
                  Sample.app "a3" "t3" "rejected"]) eq_refl)
    as (listed & Hreply & Hlisted & _).
  exists listed. split; [exact Hreply|]. rewrite Hlisted. by vm_compute.
Defined.

(** ** GET /my-applications *)

(** A [map] whose callback returns on every element returns the list of
    the results. *)
Lemma attempt_mapM_Forall2 {A B} (f : A → attempt B) (R : A → B → Prop) l :
  Forall (λ x, ∃ y, f x = Returned y ∧ R x y) l →
  ∃ k, mapM f l = Returned k ∧ Forall2 R l k.
Proof.
  induction 1 as [|x l (y & Hy & HR) _ (k & Hk & HRs)].
  - exists []. split; [done | constructor].
  - exists (y :: k). split; [|by constructor].
    change (mapM f (x :: l))
      with (f x ≫= λ y, mapM f l ≫= λ k, mret (y :: k)).
    by rewrite Hy, Hk.
Qed.

(** The entries of GET /my-applications: one for each vacancy the query
    selects, built from the first application of the teacher in it. *)
Lemma my_applications_entries typeError userId db :
  ∃ entries,
    TeacherApply.my_applications typeError userId db = json entries
    ∧ Forall2
        (λ v entry,
           ∃ i a,
             list_find (λ app, Application.teacher app = userId)
               (Vacancy.applications v) = Some (i, a)
             ∧ entry
               = TeacherApply.mk_my_application (Application._id a)
                   (TeacherApply.mk_vacancy_summary (Vacancy._id v)
                      (Vacancy.descr v) (Vacancy.status v))
                   (Application.status a) (Application.appliedAt a))
        (Mongo.find
           (λ v, Exists (λ a, Application.teacher a = userId)
                        (Vacancy.applications v))
           (vacancies db))
        entries.
Proof.
  unfold TeacherApply.my_applications.
  edestruct (attempt_mapM_Forall2
               (λ vacancy,
                  application ←
                    property_of typeError
                      (Mongo.findOne (λ app, Application.teacher app = userId)
                         (Vacancy.applications vacancy));
                  mret (TeacherApply.mk_my_application
                          (Application._id application)
                          (TeacherApply.mk_vacancy_summary (Vacancy._id vacancy)
                             (Vacancy.descr vacancy) (Vacancy.status vacancy))
                          (Application.status application)
                          (Application.appliedAt application)))
               (λ v entry,
                  ∃ i a,
                    list_find (λ app, Application.teacher app = userId)
                      (Vacancy.applications v) = Some (i, a)
                    ∧ entry
                      = TeacherApply.mk_my_application (Application._id a)
                          (TeacherApply.mk_vacancy_summary (Vacancy._id v)
                             (Vacancy.descr v) (Vacancy.status v))
                          (Application.status a) (Application.appliedAt a))
               (Mongo.find
                  (λ v, Exists (λ a, Application.teacher a = userId)
                               (Vacancy.applications v))
                  (vacancies db)))
    as (entries & Hentries & Hall);
    [|rewrite Hentries; exists entries; split; [reflexivity | exact Hall]].
  apply Forall_forall. intros v [(a & Ha & Hteacher)%Exists_exists _]%list_elem_of_filter.
  destruct (list_find_elem_of (λ app, Application.teacher app = userId)
              (Vacancy.applications v) a Ha Hteacher) as [[i a'] Hfind].
  eexists. split.
  - unfold Mongo.findOne. rewrite Hfind. reflexivity.
  - eauto.
Qed.

(** GET /my-applications never fails for want of an application: the
    vacancies its query selects all hold one of the teacher. It answers
    with one entry per vacancy holding an application of the teacher, and
    each entry carries the id, status and date of an application of that
    teacher there, with the id and status of the vacancy. *)
Theorem my_applications_one_per_vacancy typeError userId db :
  ∃ entries,
    TeacherApply.my_applications typeError userId db = json entries
    ∧ length entries
      = Mongo.countDocuments
          (λ v, Exists (λ a, Application.teacher a = userId)
                       (Vacancy.applications v))
          (vacancies db)
    ∧ ∀ entry, entry ∈ entries →
        ∃ v a, v ∈ vacancies db
               ∧ a ∈ Vacancy.applications v
               ∧ Application.teacher a = userId
               ∧ TeacherApply.my_id entry = Application._id a
               ∧ TeacherApply.my_status entry = Application.status a
               ∧ TeacherApply.my_appliedAt entry = Application.appliedAt a
               ∧ TeacherApply.summary_id (TeacherApply.my_vacancy entry)
                 = Vacancy._id v
               ∧ TeacherApply.summary_status (TeacherApply.my_vacancy entry)
                 = Vacancy.status v.
Proof.
  destruct (my_applications_entries typeError userId db)
    as (entries & Hreply & Hentries).
  exists entries. split_and!; [done| |].
  - unfold Mongo.countDocuments. symmetry. by eapply Forall2_length.
  - intros entry (j & Hj)%list_elem_of_lookup_1.
    destruct (Forall2_lookup_r _ _ _ _ _ Hentries Hj)
      as (v & Hv & i & a & Hfind & ->).
    apply list_elem_of_lookup_2 in Hv. apply list_elem_of_filter in Hv as [_ Hv].
    apply list_find_Some in Hfind as (Hi & Hteacher & _).
    apply list_elem_of_lookup_2 in Hi.
    exists v, a. by split_and!.
Qed.

(** With unique ids, no vacancy is both offered to a teacher by GET
    /available-vacancies and reported by GET /my-applications, and every
    open vacancy with fewer than five applications is in one of the two
    answers. *)
Theorem available_or_applied typeError teacherId db available applied :
  NoDup (Vacancy._id <$> vacancies db) →
  TeacherApply.available_vacancies teacherId db = json available →
  TeacherApply.my_applications typeError teacherId db = json applied →
  (∀ entry mine,
     entry ∈ available → mine ∈ applied →
     Vacancy.sel_id (TeacherApply.vacancy entry)
     ≠ TeacherApply.summary_id (TeacherApply.my_vacancy mine))
  ∧ (∀ v, v ∈ vacancies db → Vacancy.status v = "open" →
          length (Vacancy.applications v) < 5 →
          (∃ entry, entry ∈ available
                    ∧ Vacancy.sel_id (TeacherApply.vacancy entry) = Vacancy._id v)
          ∨ (∃ mine, mine ∈ applied
                     ∧ TeacherApply.summary_id (TeacherApply.my_vacancy mine)
                       = Vacancy._id v)).
Proof.
  intros Hnd Havailable Happlied.
  destruct (TeacherApply_available_vacancies_exact teacherId db)
    as (available' & Hreply & Hexact & _).
  rewrite Havailable in Hreply. injection Hreply as <-.
  destruct (my_applications_entries typeError teacherId db)
    as (applied' & Hreply & Hentries).
  rewrite Happlied in Hreply. injection Hreply as <-.
  split.
  - intros entry mine (v & Hv & (_ & _ & Hnone) & ->)%Hexact
      (j & Hj)%list_elem_of_lookup_1 Hsame.
    destruct (Forall2_lookup_r _ _ _ _ _ Hentries Hj)
      as (v' & Hv' & i & a & Hfind & ->).
    apply list_elem_of_lookup_2, list_elem_of_filter in Hv' as [_ Hv'].
    apply list_find_Some in Hfind as (Hi & Hteacher & _).
    apply list_elem_of_lookup_2 in Hi. simpl in Hsame.
    apply list_elem_of_lookup_1 in Hv as [k Hk].
    apply list_elem_of_lookup_1 in Hv' as [k' Hk'].
    assert (k = k') as <- by (by eapply (by_id_once _ (Vacancy._id v') Hnd)).
    assert (v' = v) as -> by congruence.
    apply Hnone. eauto.
  - intros v Hv Hopen Hroom.
    destruct (decide (Exists (λ a, Application.teacher a = teacherId)
                             (Vacancy.applications v))) as [Hholds|Hfree].
    + right.
      assert (v ∈ Mongo.find
                    (λ v, Exists (λ a, Application.teacher a = teacherId)
                                 (Vacancy.applications v))
                    (vacancies db)) as (j & Hj)%list_elem_of_lookup_1
        by (by apply list_elem_of_filter).
      destruct (Forall2_lookup_l _ _ _ _ _ Hentries Hj)
        as (mine & Hmine & i & a & _ & ->).
      eexists. split; [by eapply list_elem_of_lookup_2|done].
    + left. eexists. split.
      * apply Hexact. exists v. split_and!; [done| |done].
        split_and!; [done..|].
        intros (a & Ha & Hteacher). apply Hfree, Exists_exists. eauto.
      * done.
Qed.

(** On the sample listing teacher t1 is offered v2 and has applied to
    v1. *)
Lemma available_or_applied_witness :
  let available :=
    [TeacherApply.mk_formatted
       (Vacancy.mk_selected "v2" Sample.maths
          [Sample.app "a2" "t2" "rejected"] "open") 1] in
  let applied :=
    [TeacherApply.mk_my_application "a1"
       (TeacherApply.mk_vacancy_summary "v1" Sample.maths "open")
       "pending" (Some 1700000000000%Z)] in
  (∀ entry mine,
     entry ∈ available → mine ∈ applied →
     Vacancy.sel_id (TeacherApply.vacancy entry)
     ≠ TeacherApply.summary_id (TeacherApply.my_vacancy mine))
  ∧ ((∃ entry, entry ∈ available
               ∧ Vacancy.sel_id (TeacherApply.vacancy entry) = "v1")
     ∨ (∃ mine, mine ∈ applied
                ∧ TeacherApply.summary_id (TeacherApply.my_vacancy mine) = "v1")).
Proof.
  cbv zeta.
  destruct (available_or_applied "TypeError" "t1" Sample.listing _ _
              ltac:(apply (bool_decide_unpack _); by vm_compute)
              eq_refl eq_refl) as [Hdisjoint Hcover].
  split; [exact Hdisjoint|].
  apply (Hcover (Vacancy.mk "v1" Sample.maths "open" false
                   [Sample.app "a1" "t1" "pending"])).
  - apply list_elem_of_here.
  - reflexivity.
  - simpl. lia.
Defined.

(** * Further properties of the apply and status handlers *)

(** On a vacancy that already holds five applications the capacity check
    of vacancyRoutes.js refuses a sixth. *)
Lemma VacancyRoutes_apply_vacancy_capacity_witness :
  Forall within_capacity
    (vacancies (VacancyRoutes.apply_vacancy "a6" "v1" "t6"
                  Sample.reopened_full).2).
Proof.
  apply (VacancyRoutes_apply_vacancy_capacity "a6" "v1" "t6" Sample.reopened_full).
  apply Forall_singleton. unfold within_capacity. simpl. lia.
Defined.

(** ** What a status update leaves alone *)

(** [updateOne] keeps every projection that its update keeps. *)
Lemma updateOne_fmap {D E : Type} (f : D → E) (q : D → Prop)
    `{!∀ d, Decision (q d)} (u : D → D) (c : list D) :
  (∀ d, f (u d) = f d) → f <$> Mongo.updateOne q u c = f <$> c.
Proof.
  intros Hu. unfold Mongo.updateOne.
  destruct (list_find q c) as [[i d]|]; [|done].
  rewrite (list_fmap_alter f u id)
    by (apply Forall_forall; intros x _; apply Hu).
  by apply list_alter_id.
Qed.

Lemma set_update_identity applicationId status v :
  vacancy_identity (TeacherApply.set_update applicationId status v)
  = vacancy_identity v.
Proof.
  unfold vacancy_identity. rewrite set_update_applications.
  unfold Mongo.positional. rewrite updateOne_fmap by done.
  unfold TeacherApply.set_update. by case_decide.
Qed.

Lemma reject_others_identity applicationId v :
  vacancy_identity (TeacherApply.reject_others applicationId v)
  = vacancy_identity v.
Proof.
  unfold vacancy_identity. simpl. f_equal. unfold Mongo.filtered.
  rewrite <- list_fmap_compose. apply list_fmap_ext.
  intros i a _. simpl. by case_decide.
Qed.

(** Whatever status they are sent, the two status handlers change nothing
    but statuses: the vacancies keep their ids, contents and featured
    flags, in the same order, and each keeps its applications with their
    ids, teachers and dates, in the same order; the teachers are not
    touched. *)
Theorem status_update_changes_statuses_only vacancyId applicationId status db :
  let ta := TeacherApply.application_status applicationId status db in
  let vr := VacancyRoutes.application_status vacancyId applicationId status db in
  vacancy_identity <$> vacancies ta.2 = vacancy_identity <$> vacancies db
  ∧ teachers ta.2 = teachers db
  ∧ vacancy_identity <$> vacancies vr.2 = vacancy_identity <$> vacancies db
  ∧ teachers vr.2 = teachers db.
Proof.
  cbv zeta. split_and!.
  - unfold TeacherApply.application_status, Mongo.findOneAndUpdate.
    destruct (Mongo.findOne _ (vacancies db)) as [v|]; simpl; [|done].
    case_decide.
    + rewrite updateOne_fmap by apply reject_others_identity.
      apply updateOne_fmap, set_update_identity.
    + apply updateOne_fmap, set_update_identity.
  - unfold TeacherApply.application_status, Mongo.findOneAndUpdate.
    by destruct (Mongo.findOne _ (vacancies db)).
  - unfold VacancyRoutes.application_status, Mongo.findOneAndUpdate.
    destruct (Mongo.findOne _ (vacancies db)) as [v|]; simpl; [|done].
    apply updateOne_fmap. intros d. unfold vacancy_identity. simpl.
    unfold Mongo.positional. by rewrite updateOne_fmap.
  - unfold VacancyRoutes.application_status, Mongo.findOneAndUpdate.
    by destruct (Mongo.findOne _ (vacancies db)).
Qed.

(** ** What a successful apply commits and reports *)

(** A successful apply through teacherApply.js, with unique ids: the
    vacancy stored is the one found with the new pending application
    appended; the reply reports its status and its populated applications;
    and it is closed exactly when the application is the fifth. *)
Theorem teacherApply_reply_and_fifth now newId vacancyId teacherId db k v :
  NoDup (Vacancy._id <$> vacancies db) →
  list_find (open_vacancy vacancyId) (vacancies db) = Some (k, v) →
  ¬ (Exists (λ a, Application.teacher a = teacherId) (Vacancy.applications v)
     ∧ Exists (λ t, Teacher._id t = teacherId) (teachers db)) →
  let r := TeacherApply.apply_vacancy now newId vacancyId teacherId db in
  ∃ body v',
    r.1 = json body
    ∧ vacancies r.2 !! k = Some v'
    ∧ Vacancy.applications v'
      = Vacancy.applications v
          ++ [Application.mk newId teacherId "pending" (Some now)]
    ∧ TeacherApply.vacancyStatus body = Vacancy.status v'
    ∧ TeacherApply.applied_applications body
      = Mongo.populate (teachers db) <$> Vacancy.applications v'
    ∧ (Vacancy.status v' = "closed" ↔ length (Vacancy.applications v) = 4).
Proof.
  intros Hnd Hfind Hnodup r. unfold r.
  rewrite (TeacherApply_apply_vacancy_commits _ _ _ _ _ _ _ Hnd Hfind Hnodup).
  pose proof Hfind as (Hk & [_ Hopen] & _)%list_find_Some.
  eexists _, _. split_and!; [reflexivity| | |reflexivity|reflexivity|].
  - simpl. by rewrite list_lookup_alter_eq, Hk.
  - apply TeacherApply_saved_applications.
  - unfold TeacherApply_saved. rewrite length_app. simpl.
    case_decide; simpl; [split; [lia|done]|].
    rewrite Hopen. split; [discriminate | lia].
Qed.

(** Scenario B: the fifth application closes the vacancy. *)
Lemma teacherApply_reply_and_fifth_witness :
  let r := TeacherApply.apply_vacancy 1700000000001 "a5" "v1" "t5"
             Sample.four_pending in
  ∃ body v',
    r.1 = json body
    ∧ vacancies r.2 !! 0 = Some v'
    ∧ TeacherApply.vacancyStatus body = Vacancy.status v'
    ∧ Vacancy.status v' = "closed".
Proof.
  cbv zeta.
  destruct (teacherApply_reply_and_fifth 1700000000001 "a5" "v1" "t5"
              Sample.four_pending 0
              (Vacancy.mk "v1" Sample.maths "open" false
                 [Sample.app "a1" "t1" "pending";
                  Sample.app "a2" "t2" "pending";
                  Sample.app "a3" "t3" "pending";
                  Sample.app "a4" "t4" "pending"]))
    as (body & v' & Hreply & Hv' & _ & Hstatus & _ & Hfifth).
  - apply (bool_decide_unpack _). by vm_compute.
  - reflexivity.
  - apply (bool_decide_unpack _). by vm_compute.
  - exists body, v'. split_and!; [done..|]. by apply Hfifth.
Defined.

(** ** One application per teacher *)

(** Pushing the application of a teacher who has none keeps the teachers
    of a vacancy distinct. *)
Lemma unique_teachers_push (v : Vacancy.t) (a : Application.t) :
  unique_teachers v →
  ¬ Exists (λ b, Application.teacher b = Application.teacher a)
           (Vacancy.applications v) →
  NoDup (Application.teacher <$> Vacancy.applications v ++ [a]).
Proof.
  intros Hunique Hnew. rewrite fmap_app. apply NoDup_app. split_and!.
  - exact Hunique.
  - intros t (b & Ht & Hb)%list_elem_of_fmap [Hta|[]%elem_of_nil]%elem_of_cons.
    apply Hnew, Exists_exists. exists b. split; [done | congruence].
  - apply NoDup_singleton.
Qed.

(** The apply handler of vacancyRoutes.js keeps the invariant that no
    teacher has two applications on a vacancy; the handler of
    teacherApply.js keeps it for an applicant whose teacher document
    exists. *)
Theorem apply_keeps_unique_teachers now newId vacancyId teacherId db :
  Forall unique_teachers (vacancies db) →
  Forall unique_teachers
    (vacancies (VacancyRoutes.apply_vacancy newId vacancyId teacherId db).2)
  ∧ (Exists (λ t, Teacher._id t = teacherId) (teachers db) →
     Forall unique_teachers
       (vacancies (TeacherApply.apply_vacancy now newId vacancyId teacherId db).2)).
Proof.
  intros Hunique. split.
  - unfold VacancyRoutes.apply_vacancy.
    destruct (Mongo.findOne _ (vacancies db)) as [v|] eqn:Hfind; [|done].
    apply findOne_Some in Hfind as [k (Hk & _)%list_find_Some].
    pose proof (Forall_lookup_1 _ _ _ _ Hunique Hk) as Hv.
    repeat case_decide; try done. simpl.
    apply updateOne_Forall; [|done]. intros _ _.
    by apply (unique_teachers_push v (Application.mk newId teacherId "pending" None)).
  - intros Hdoc. unfold TeacherApply.apply_vacancy.
    destruct (Mongo.findOne _ (vacancies db)) as [v|] eqn:Hfind; [|done].
    apply findOne_Some in Hfind as [k (Hk & _)%list_find_Some].
    pose proof (Forall_lookup_1 _ _ _ _ Hunique Hk) as Hv.
    case_decide as Hdup; [done|]. cbv zeta.
    rewrite populated_duplicate in Hdup.
    assert (unique_teachers
              (Vacancy.set_applications
                 (Vacancy.applications v
                    ++ [Application.mk newId teacherId "pending" (Some now)]) v))
      as Hpushed.
    { apply (unique_teachers_push v
               (Application.mk newId teacherId "pending" (Some now)) Hv).
      simpl. tauto. }
    assert (Forall unique_teachers
              (Mongo.save
                 (if decide
                       (length (Vacancy.applications v
                                  ++ [Application.mk newId teacherId "pending"
                                        (Some now)]) = 5)
                  then Vacancy.set_status "closed"
                         (Vacancy.set_applications
                            (Vacancy.applications v
                               ++ [Application.mk newId teacherId "pending"
                                     (Some now)]) v)
                  else Vacancy.set_applications
                         (Vacancy.applications v
                            ++ [Application.mk newId teacherId "pending"
                                  (Some now)]) v)
                 (vacancies db))) as Hsaved.
    { apply updateOne_Forall; [|done]. intros _ _. by case_decide. }
    simpl. by destruct (Mongo.findById _ _).
Qed.

Lemma apply_keeps_unique_teachers_witness :
  Forall unique_teachers
    (vacancies (VacancyRoutes.apply_vacancy "a4" "v1" "t4"
                  Sample.three_pending).2)
  ∧ Forall unique_teachers
      (vacancies (TeacherApply.apply_vacancy 1700000000001 "a4" "v1" "t4"
                    Sample.three_pending).2).
Proof.
  destruct (apply_keeps_unique_teachers 1700000000001 "a4" "v1" "t4"
              Sample.three_pending) as [Hvr Hta].
  - apply Forall_singleton. apply (bool_decide_unpack _). by vm_compute.
  - split; [exact Hvr|]. apply Hta.
    apply (bool_decide_unpack _). by vm_compute.
Defined.

(** ** The two outcomes of an apply *)

(** Updating the document a query found first, so that it still answers
    the query, leaves it the first one found. *)
Lemma list_find_alter {D : Type} (q : D → Prop) `{!∀ d, Decision (q d)}
    (u : D → D) (c : list D) k d :
  list_find q c = Some (k, d) → q (u d) →
  list_find q (alter u k c) = Some (k, u d).
Proof.
  intros (Hk & _ & Hfirst)%list_find_Some Hq. apply list_find_Some.
  split; [by rewrite list_lookup_alter_eq, Hk|]. split; [done|].
  intros j y Hj Hlt. rewrite list_lookup_alter_ne in Hj by lia. eauto.
Qed.

(** With unique ids, an apply through vacancyRoutes.js either fails and
    leaves the database as it was, or replaces the open vacancy it found by
    that vacancy with the application pushed. *)
Lemma VacancyRoutes_apply_vacancy_outcome newId vacancyId teacherId db :
  NoDup (Vacancy._id <$> vacancies db) →
  let r := VacancyRoutes.apply_vacancy newId vacancyId teacherId db in
  (¬ is_json r.1 ∧ r.2 = db
   ∧ ∀ newId', VacancyRoutes.apply_vacancy newId' vacancyId teacherId db = r)
  ∨ (∃ k v,
       list_find (open_vacancy vacancyId) (vacancies db) = Some (k, v)
       ∧ r = (json "Application submitted successfully",
              with_vacancies
                (alter (λ _, VacancyRoutes_saved newId teacherId v) k
                   (vacancies db)) db)).
Proof.
  intros Hnd r. unfold r.
  destruct (list_find (open_vacancy vacancyId) (vacancies db)) as [[k v]|]
    eqn:Hfind.
  - destruct (decide (Exists (λ a, Application.teacher a = teacherId)
                             (Vacancy.applications v))) as [Hdup|Hnodup].
    { left. unfold VacancyRoutes.apply_vacancy, Mongo.findOne. rewrite Hfind.
      simpl. rewrite decide_True by done.
      split_and!;
        [by intros [] | done | intros; simpl; repeat case_decide; done]. }
    destruct (decide (5 ≤ length (Vacancy.applications v))) as [Hfull|Hroom].
    { left. unfold VacancyRoutes.apply_vacancy, Mongo.findOne. rewrite Hfind.
      simpl. rewrite decide_False by done. rewrite decide_True by done.
      split_and!;
        [by intros [] | done | intros; simpl; repeat case_decide; done]. }
    right. exists k, v. split; [done|].
    apply VacancyRoutes_apply_vacancy_commits; [done..|lia].
  - left. unfold VacancyRoutes.apply_vacancy, Mongo.findOne. rewrite Hfind.
    split_and!;
        [by intros [] | done | intros; simpl; repeat case_decide; done].
Qed.

(** Likewise for teacherApply.js. *)
Lemma TeacherApply_apply_vacancy_outcome now newId vacancyId teacherId db :
  NoDup (Vacancy._id <$> vacancies db) →
  let r := TeacherApply.apply_vacancy now newId vacancyId teacherId db in
  (¬ is_json r.1 ∧ r.2 = db
   ∧ ∀ now' newId',
       TeacherApply.apply_vacancy now' newId' vacancyId teacherId db = r)
  ∨ (∃ k v,
       list_find (open_vacancy vacancyId) (vacancies db) = Some (k, v)
       ∧ is_json r.1
       ∧ r.2 = with_vacancies
                 (alter (λ _, TeacherApply_saved now newId teacherId v) k
                    (vacancies db)) db).
Proof.
  intros Hnd r. unfold r.
  destruct (list_find (open_vacancy vacancyId) (vacancies db)) as [[k v]|]
    eqn:Hfind.
  - destruct (decide (Exists (λ a, Application.teacher a = teacherId)
                        (Vacancy.applications v)
                      ∧ Exists (λ t, Teacher._id t = teacherId) (teachers db)))
      as [Hdup|Hnodup].
    { left. unfold TeacherApply.apply_vacancy, Mongo.findOne. rewrite Hfind.
      simpl. rewrite decide_True by (by apply populated_duplicate).
      split_and!; [by intros [] | done |].
      intros. by rewrite decide_True by (by apply populated_duplicate). }
    right. exists k, v. split; [done|].
    by rewrite (TeacherApply_apply_vacancy_commits _ _ _ _ _ _ _
                  Hnd Hfind Hnodup).
  - left. unfold TeacherApply.apply_vacancy, Mongo.findOne. rewrite Hfind.
    split_and!;
        [by intros [] | done | intros; simpl; repeat case_decide; done].
Qed.

(** ** Applying twice *)

(** With unique ids, a second apply by the same teacher to the same
    vacancy never adds an application: it fails and leaves the database as
    the first call left it. After a first success, vacancyRoutes.js
    answers DuplicateApplication; teacherApply.js, for a teacher whose
    document exists, answers DuplicateApplication, or the 404 of a vacancy
    not open when the first application was the fifth. *)
Theorem apply_twice now now' newId newId' vacancyId teacherId db :
  NoDup (Vacancy._id <$> vacancies db) →
  let vr1 := VacancyRoutes.apply_vacancy newId vacancyId teacherId db in
  let vr2 := VacancyRoutes.apply_vacancy newId' vacancyId teacherId vr1.2 in
  let ta1 := TeacherApply.apply_vacancy now newId vacancyId teacherId db in
  let ta2 := TeacherApply.apply_vacancy now' newId' vacancyId teacherId ta1.2 in
  (¬ is_json vr2.1 ∧ vr2.2 = vr1.2
   ∧ (is_json vr1.1 → vr2.1 = DuplicateApplication))
  ∧ (Exists (λ t, Teacher._id t = teacherId) (teachers db) →
     ¬ is_json ta2.1 ∧ ta2.2 = ta1.2
     ∧ (is_json ta1.1 →
        ta2.1 = DuplicateApplication ∨ ta2.1 = NotFoundOrNotOpen)).
Proof.
  intros Hnd vr1 vr2 ta1 ta2. subst vr1 vr2 ta1 ta2. split.
  - destruct (VacancyRoutes_apply_vacancy_outcome newId vacancyId teacherId
                db Hnd) as [(Hfail & Hsame & Hany)|(k & v & Hfind & Hdone)].
    + rewrite Hsame, Hany. by split_and!.
    + pose proof Hfind as (Hk & Hq & _)%list_find_Some.
      rewrite Hdone. simpl.
      assert (VacancyRoutes.apply_vacancy newId' vacancyId teacherId
                (with_vacancies
                   (alter (λ _, VacancyRoutes_saved newId teacherId v) k
                      (vacancies db)) db)
              = (DuplicateApplication,
                 with_vacancies
                   (alter (λ _, VacancyRoutes_saved newId teacherId v) k
                      (vacancies db)) db)) as ->;
        [|split_and!; [by intros [] | done | done]].
      unfold VacancyRoutes.apply_vacancy, Mongo.findOne. simpl.
      rewrite (list_find_alter _ _ _ _ _ Hfind) by done. simpl.
      rewrite decide_True; [done|].
      apply Exists_exists. eexists.
      split; [apply elem_of_app; right; apply list_elem_of_here|].
      reflexivity.
  - intros Hdoc.
    destruct (TeacherApply_apply_vacancy_outcome now newId vacancyId teacherId
                db Hnd) as [(Hfail & Hsame & Hany)|(k & v & Hfind & Hjson & Hdone)].
    + rewrite Hsame, Hany. by split_and!.
    + pose proof Hfind as (Hk & [Hid Hopen] & _)%list_find_Some.
      rewrite Hdone.
      set (saved := TeacherApply_saved now newId teacherId v).
      set (db1 := with_vacancies (alter (λ _, saved) k (vacancies db)) db).
      assert (TeacherApply.apply_vacancy now' newId' vacancyId teacherId db1
              = (DuplicateApplication, db1)
              ∨ TeacherApply.apply_vacancy now' newId' vacancyId teacherId db1
                = (NotFoundOrNotOpen, db1)) as [-> | ->];
        [|split_and!; [by intros [] | done | by left]
         |split_and!; [by intros [] | done | by right]].
      destruct (decide (Vacancy.status saved = "open")) as [Hstill|Hclosed].
      * left. unfold TeacherApply.apply_vacancy, Mongo.findOne. simpl.
        rewrite (list_find_alter _ (λ _, saved) _ _ _ Hfind)
          by (split; [unfold saved, TeacherApply_saved; by case_decide | done]).
        simpl. rewrite decide_True; [done|].
        apply populated_duplicate. split; [|done].
        unfold saved. rewrite TeacherApply_saved_applications.
        apply Exists_exists. eexists.
        split; [apply elem_of_app; right; apply list_elem_of_here|].
        reflexivity.
      * right. apply TeacherApply_apply_vacancy_unavailable. simpl.
        apply (open_vacancy_not_open _ _ saved).
        -- rewrite alter_keeps_ids; [done|]. intros v' Hv'.
           unfold saved, TeacherApply_saved. case_decide; simpl; congruence.
        -- unfold Mongo.findById, Mongo.findOne.
           rewrite (list_find_by_id _ k saved vacancyId); [done| | |].
           ++ rewrite alter_keeps_ids; [done|]. intros v' Hv'.
              unfold saved, TeacherApply_saved. case_decide; simpl; congruence.
           ++ by rewrite list_lookup_alter_eq, Hk.
           ++ unfold saved, TeacherApply_saved. by case_decide.
        -- done.
Qed.

(** Scenario E: T1 applies to V twice. *)
Lemma apply_twice_witness :
  let vr1 := VacancyRoutes.apply_vacancy "a4" "v1" "t4" Sample.three_pending in
  let vr2 := VacancyRoutes.apply_vacancy "a5" "v1" "t4" vr1.2 in
  let ta1 := TeacherApply.apply_vacancy 1700000000001 "a4" "v1" "t4"
               Sample.three_pending in
  let ta2 := TeacherApply.apply_vacancy 1700000000002 "a5" "v1" "t4" ta1.2 in
  vr2.2 = vr1.2 ∧ vr2.1 = DuplicateApplication ∧ ta2.2 = ta1.2.
Proof.
  cbv zeta.
  destruct (apply_twice 1700000000001 1700000000002 "a4" "a5" "v1" "t4"
              Sample.three_pending) as [(_ & Hvr & Hdup) Hta].
  - apply (bool_decide_unpack _). by vm_compute.
  - split_and!; [exact Hvr | by apply Hdup |].
    apply Hta. apply (bool_decide_unpack _). by vm_compute.
Defined.

(** ** Apply only appends *)

(** With unique ids, an apply through either handler leaves every stored
    vacancy in its place with its id; its applications are kept as they
    were, with at most one appended; and its status is kept or becomes
    'closed', never 'open' again. *)
Theorem apply_only_appends now newId vacancyId teacherId db k v :
  NoDup (Vacancy._id <$> vacancies db) →
  vacancies db !! k = Some v →
  let kept (after : DB) :=
    ∃ v', vacancies after !! k = Some v'
          ∧ Vacancy._id v' = Vacancy._id v
          ∧ Vacancy.applications v `prefix_of` Vacancy.applications v'
          ∧ length (Vacancy.applications v')
            ≤ S (length (Vacancy.applications v))
          ∧ (Vacancy.status v' = Vacancy.status v
             ∨ Vacancy.status v' = "closed") in
  kept (TeacherApply.apply_vacancy now newId vacancyId teacherId db).2
  ∧ kept (VacancyRoutes.apply_vacancy newId vacancyId teacherId db).2.
Proof.
  intros Hnd Hk kept.
  assert (kept db) as Hsame.
  { exists v. split_and!; [done..| lia | by left]. }
  assert (∀ saved k0 v0,
            vacancies db !! k0 = Some v0 →
            Vacancy._id saved = Vacancy._id v0 →
            Vacancy.applications v0 `prefix_of` Vacancy.applications saved →
            length (Vacancy.applications saved)
            ≤ S (length (Vacancy.applications v0)) →
            (Vacancy.status saved = Vacancy.status v0
             ∨ Vacancy.status saved = "closed") →
            kept (with_vacancies (alter (λ _, saved) k0 (vacancies db)) db))
    as Hsaved.
  { intros saved k0 v0 Hk0 Hid Hprefix Hlen Hstatus.
    destruct (decide (k0 = k)) as [->|Hne].
    - assert (v0 = v) as -> by congruence.
      exists saved. split_and!; [|done..]. simpl.
      by rewrite list_lookup_alter_eq, Hk.
    - exists v. split_and!; [|done..| lia | by left]. simpl.
      by rewrite list_lookup_alter_ne. }
  split.
  - destruct (TeacherApply_apply_vacancy_outcome now newId vacancyId teacherId
                db Hnd) as [(_ & -> & _)|(k0 & v0 & Hfind & _ & ->)]; [done|].
    apply list_find_Some in Hfind as (Hk0 & _).
    apply (Hsaved _ _ v0 Hk0).
    + unfold TeacherApply_saved. by case_decide.
    + rewrite TeacherApply_saved_applications. by apply prefix_app_r.
    + rewrite TeacherApply_saved_applications, length_app. simpl. lia.
    + unfold TeacherApply_saved. case_decide; [by right | by left].
  - destruct (VacancyRoutes_apply_vacancy_outcome newId vacancyId teacherId
                db Hnd) as [(_ & -> & _)|(k0 & v0 & Hfind & ->)]; [done|].
    apply list_find_Some in Hfind as (Hk0 & _).
    apply (Hsaved _ _ v0 Hk0); simpl.
    + done.
    + by apply prefix_app_r.
    + rewrite length_app. simpl. lia.
    + by left.
Qed.

(** Scenario A on a store with another vacancy holding applications. *)
Lemma apply_only_appends_witness :
  ∃ v', vacancies (TeacherApply.apply_vacancy 1700000000001 "a5" "v2" "t5"
                     Sample.listing).2 !! 0 = Some v'
        ∧ [Sample.app "a1" "t1" "pending"] `prefix_of` Vacancy.applications v'.
Proof.
  destruct (apply_only_appends 1700000000001 "a5" "v2" "t5" Sample.listing 0
              (Vacancy.mk "v1" Sample.maths "open" false
                 [Sample.app "a1" "t1" "pending"]))
    as [(v' & Hv' & _ & Hprefix & _) _].
  - apply (bool_decide_unpack _). by vm_compute.
  - reflexivity.
  - by exists v'.
Defined.

(** ** The reply of an acceptance *)

(** PUT /application-status answers with the applications as the first
    write left them: after an acceptance, with unique ids, an application
    with another id that was pending is still pending in the reply, while
    the database holds it rejected. *)
Theorem acceptance_reply_precedes_cascade applicationId db k v j b :
  NoDup (Vacancy._id <$> vacancies db) →
  list_find (holds_application applicationId) (vacancies db) = Some (k, v) →
  Vacancy.applications v !! j = Some b →
  Application._id b ≠ applicationId →
  Application.status b = "pending" →
  let r := TeacherApply.application_status applicationId "accepted" db in
  ∃ body v',
    r.1 = json body
    ∧ Populated.status <$> TeacherApply.data body !! j = Some "pending"
    ∧ vacancies r.2 !! k = Some v'
    ∧ Application.status <$> Vacancy.applications v' !! j = Some "rejected".
Proof.
  intros Hnd Hfind Hj Hne Hpending r. unfold r.
  rewrite (TeacherApply_application_status_found _ _ _ _ _ Hfind).
  cbn [fst snd]. rewrite decide_True by done. cbn [vacancies with_vacancies].
  pose proof Hfind as (Hk & _)%list_find_Some.
  set (vacancy := TeacherApply.set_update applicationId "accepted" v).
  assert (Vacancy.applications vacancy !! j = Some b) as Hj1.
  { unfold vacancy. rewrite set_update_applications.
    by apply positional_lookup_other. }
  set (vacancies1 := alter _ k (vacancies db)).
  assert (vacancies1 !! k = Some vacancy) as Hk1.
  { unfold vacancies1. by rewrite list_lookup_alter_eq, Hk. }
  assert (NoDup (Vacancy._id <$> vacancies1)) as Hnd1.
  { unfold vacancies1. rewrite alter_keeps_ids; [done|].
    intros ? _. apply set_update_id. }
  rewrite (updateOne_found _ _ _ k vacancy) by (by apply list_find_by_id).
  eexists _, _. split_and!; [reflexivity| | |].
  - cbn [TeacherApply.data]. by rewrite list_lookup_fmap, Hj1, <- Hpending.
  - by rewrite list_lookup_alter_eq, Hk1.
  - by rewrite (reject_others_lookup_pending _ _ _ _ Hj1 Hne Hpending).
Qed.

(** Scenario C: the reply still shows T2 pending. *)
Lemma acceptance_reply_precedes_cascade_witness :
  let r := TeacherApply.application_status "a1" "accepted" Sample.three_pending in
  ∃ body v',
    r.1 = json body
    ∧ Populated.status <$> TeacherApply.data body !! 1 = Some "pending"
    ∧ vacancies r.2 !! 0 = Some v'
    ∧ Application.status <$> Vacancy.applications v' !! 1 = Some "rejected".
Proof.
  apply (acceptance_reply_precedes_cascade "a1" Sample.three_pending 0
           (Vacancy.mk "v1" Sample.maths "open" false
              [Sample.app "a1" "t1" "pending";
               Sample.app "a2" "t2" "pending";
               Sample.app "a3" "t3" "pending"])
           1 (Sample.app "a2" "t2" "pending")).
  - apply (bool_decide_unpack _). by vm_compute.
  - reflexivity.
  - reflexivity.
  - simpl. discriminate.
  - reflexivity.
Defined.

(** ** The upload filter *)

(** [fileFilter] accepts a file exactly when it is a PDF or Word document
    in the field cv or certificates, or a JPEG or PNG image in the field
    certificates. So whatever is accepted as a CV is accepted as a
    certificate, an image is never accepted as a CV, and no other field is
    accepted. *)
Theorem fileFilter_accepts fieldname mimetype :
  (TeacherApply.fileFilter fieldname mimetype = TeacherApply.accepted
   ↔ (fieldname = "cv" ∨ fieldname = "certificates")
     ∧ mimetype
       ∈ ["application/pdf"; "application/msword";
          "application/vnd.openxmlformats-officedocument.wordprocessingml.document"]
     ∨ fieldname = "certificates" ∧ mimetype ∈ ["image/jpeg"; "image/png"])
  ∧ (TeacherApply.fileFilter "cv" mimetype = TeacherApply.accepted →
     TeacherApply.fileFilter "certificates" mimetype = TeacherApply.accepted).
Proof.
  unfold TeacherApply.fileFilter, TeacherApply.ALLOWED_TYPES. split.
  - cbn [list_find fmap option_fmap option_map fst snd].
    destruct (decide ("cv" = fieldname)) as [<-|Hcv];
      [|destruct (decide ("certificates" = fieldname)) as [<-|Hcert]]; cbn.
    + case_decide as Hin; rewrite !elem_of_cons, elem_of_nil in *;
        split; intros Hyp; try done; intuition congruence.
    + case_decide as Hin; rewrite !elem_of_cons, elem_of_nil in *;
        split; intros Hyp; try done; intuition congruence.
    + split; intros Hyp; [done | intuition congruence].
  - cbn [list_find fmap option_fmap option_map fst snd].
    rewrite (decide_True (P := "cv" = "cv")) by done.
    rewrite (decide_False (P := "cv" = "certificates")) by done.
    rewrite (decide_True (P := "certificates" = "certificates")) by done.
    cbn. case_decide as Hcv; [|done]. case_decide as Hcert; [done|].
    exfalso. apply Hcert. rewrite !elem_of_cons in *. tauto.
Qed.
